(** * drone-tree-config: configuration lookup for mono repositories

    A shallow embedding of [plugin/plugin.go].  Go strings are byte
    sequences and are modelled by [string]; the [map[string]bool] cache of
    [getScmConfigData] is a [gmap string bool]; a Go [error] is modelled by
    its message.  Calls to the SCM client are recorded in a log that is
    threaded through the functions, so that statements about which
    revision or which path is requested can be made.  Logging through
    logrus and the request UUID have no influence on any result and are
    left out. *)

From Stdlib Require Import ZArith Lia Bool List Ascii String.
From stdpp Require Import base gmap strings list.

Local Open Scope string_scope.
Local Open Scope list_scope.

(** ** Bytes and strings of the Go standard library *)

Definition LF : string := String "010"%char "".
Definition TAB : string := String "009"%char "".

Definition is_dash (c : ascii) : bool := Ascii.eqb c "-"%char.
Definition is_dot (c : ascii) : bool := Ascii.eqb c "."%char.

(** The class [\s] of Go's regexp syntax: [\t\n\f\r ]. *)
Definition is_space (c : ascii) : bool :=
  Ascii.eqb c "009"%char || Ascii.eqb c "010"%char || Ascii.eqb c "012"%char
  || Ascii.eqb c "013"%char || Ascii.eqb c " "%char.

(** Every byte of [s] satisfies [f]. *)
Fixpoint all_bytes (f : ascii -> bool) (s : string) : bool :=
  match s with
  | "" => true
  | String c s' => f c && all_bytes f s'
  end.

(** [strings.HasPrefix] and [strings.HasSuffix]. *)
Fixpoint strings_HasPrefix (s pre : string) {struct pre} : bool :=
  match pre with
  | "" => true
  | String p pre' =>
      match s with
      | "" => false
      | String c s' => Ascii.eqb c p && strings_HasPrefix s' pre'
      end
  end.

Fixpoint strings_HasSuffix (s suf : string) : bool :=
  String.eqb s suf ||
  match s with
  | "" => false
  | String _ s' => strings_HasSuffix s' suf
  end.

(** [strings.Trim s cutset]: all leading and trailing bytes that occur in
    [cutset] are removed. *)
Fixpoint in_cutset (cutset : string) (c : ascii) : bool :=
  match cutset with
  | "" => false
  | String d cutset' => Ascii.eqb c d || in_cutset cutset' c
  end.

Fixpoint strings_TrimLeft (s cutset : string) : string :=
  match s with
  | "" => ""
  | String c s' => if in_cutset cutset c then strings_TrimLeft s' cutset else s
  end.

Fixpoint strings_TrimRight (s cutset : string) : string :=
  match s with
  | "" => ""
  | String c s' =>
      let t := strings_TrimRight s' cutset in
      if in_cutset cutset c && String.eqb t "" then "" else String c t
  end.

Definition strings_Trim (s cutset : string) : string :=
  strings_TrimRight (strings_TrimLeft s cutset) cutset.

(** [strings.Split s sep] for a separator of one byte. *)
Fixpoint strings_Split (s : string) (sep : ascii) : list string :=
  match s with
  | "" => [""]
  | String c s' =>
      if Ascii.eqb c sep then "" :: strings_Split s' sep
      else match strings_Split s' sep with
           | [] => [String c ""]
           | x :: xs => String c x :: xs
           end
  end.

(** [strings.Join elems sep]. *)
Fixpoint strings_Join (elems : list string) (sep : string) : string :=
  match elems with
  | [] => ""
  | [x] => x
  | x :: xs => x +:+ sep +:+ strings_Join xs sep
  end.

(** [strings.ReplaceAll s old new] for a non-empty [old]: the occurrences
    of [old] are found from the left and do not overlap.  [skip] counts the
    bytes of the occurrence just replaced that are still to be passed. *)
Fixpoint replace_from (old new : string) (skip : nat) (s : string) : string :=
  match s with
  | "" => ""
  | String c s' =>
      match skip with
      | S k => replace_from old new k s'
      | O =>
          if strings_HasPrefix s old
          then new +:+ replace_from old new (String.length old - 1) s'
          else String c (replace_from old new 0 s')
      end
  end.

Definition strings_ReplaceAll (s old new : string) : string :=
  replace_from old new 0 s.

(** [strconv.Atoi]: an optional sign and decimal digits, within the range
    of a 64-bit [int].  The digits are read as [strconv.ParseUint] reads
    them, from the left: a byte that is no digit is a syntax error, a value
    beyond 2^64 - 1 is a range error, whichever comes first. *)
Definition digit_value (c : ascii) : option Z :=
  let n := nat_of_ascii c in
  if (48 <=? n)%nat && (n <=? 57)%nat then Some (Z.of_nat (n - 48)) else None.

Inductive digits :=
| Digits (v : Z)
| BadSyntax
| OutOfRange.

Fixpoint parse_digits (acc : Z) (s : string) : digits :=
  match s with
  | "" => Digits acc
  | String c s' =>
      match digit_value c with
      | Some d =>
          let n := (10 * acc + d)%Z in
          if (n <? 2 ^ 64)%Z then parse_digits n s' else OutOfRange
      | None => BadSyntax
      end
  end.

Definition error := string.

Definition DQUOTE : string := String "034"%char "".

(** The message of a [*strconv.NumError].  The input is put between
    quotes as it is: the escapes that [strconv.Quote] writes for quotes,
    backslashes and unprintable bytes are left out. *)
Definition atoi_error (s what : string) : error :=
  "strconv.Atoi: parsing " +:+ DQUOTE +:+ s +:+ DQUOTE +:+ ": " +:+ what.

Definition strconv_Atoi (s : string) : Z + error :=
  let '(neg, body) :=
    match s with
    | String c s' =>
        if Ascii.eqb c "-"%char then (true, s')
        else if Ascii.eqb c "+"%char then (false, s')
        else (false, s)
    | "" => (false, "")
    end in
  match body with
  | "" => inr (atoi_error s "invalid syntax")
  | _ =>
      match parse_digits 0 body with
      | BadSyntax => inr (atoi_error s "invalid syntax")
      | OutOfRange => inr (atoi_error s "value out of range")
      | Digits v =>
          let z := if neg then (- v)%Z else v in
          if ((- 2 ^ 63 <=? z) && (z <? 2 ^ 63))%Z then inl z
          else inr (atoi_error s "value out of range")
      end
  end.

(** ** Package [path] *)

(** One path element applied to the stack of elements kept so far (last
    element first).  A [..] removes the element before it; at the root it
    is dropped, and in a relative path it is kept when nothing precedes
    it. *)
Definition clean_step (rooted : bool) (stk : list string) (c : string) : list string :=
  if String.eqb c "" || String.eqb c "." then stk
  else if String.eqb c ".." then
    match stk with
    | [] => if rooted then [] else [".."]
    | top :: rest => if negb rooted && String.eqb top ".." then c :: stk else rest
    end
  else c :: stk.

Definition clean_stack (rooted : bool) (p : string) : list string :=
  fold_left (clean_step rooted) (strings_Split p "/"%char) [].

(** [path.Clean]. *)
Definition path_Clean (p : string) : string :=
  if String.eqb p "" then "."
  else
    let rooted := strings_HasPrefix p "/" in
    let body := strings_Join (rev (clean_stack rooted p)) "/" in
    if rooted then "/" +:+ body
    else if String.eqb body "" then "." else body.

(** [path.Join]: empty leading elements are ignored, the others are joined
    with a slash and the result is cleaned. *)
Fixpoint path_Join (elem : list string) : string :=
  match elem with
  | [] => ""
  | e :: rest =>
      if String.eqb e "" then path_Join rest
      else path_Clean (strings_Join elem "/")
  end.

(** A path element that [path.Clean] keeps as it is, and the clean rooted
    path with the given elements (last element first). *)
Definition no_slash (c : string) : bool :=
  all_bytes (fun x => negb (Ascii.eqb x "/"%char)) c.

Definition plain_elem (c : string) : bool :=
  negb (String.eqb c "") && negb (String.eqb c ".") && negb (String.eqb c "..")
  && no_slash c.

Definition rooted_path (stk : list string) : string :=
  "/" +:+ strings_Join (rev stk) "/".

(** ** The final clean-up of [Find] *)

(** [dedupRegex] is two or more repetitions of the group "three hyphens,
    then any number of bytes of the class \s"; its flags m and s change
    nothing, as it contains no anchor and no dot.  [groups ws s] reads the
    groups that stand at the head of [s] (after white space, when [ws]
    is set): it returns their number and what follows the last of them.
    The repetitions are greedy, and nothing follows the repetition in
    the expression, so the expression matches at the head of [s] exactly
    when [groups false s] counts two groups or more, and the match ends
    where the remainder starts. *)
Fixpoint groups (ws : bool) (s : string) : nat * string :=
  match s with
  | "" => (0, "")
  | String c s1 =>
      if ws && is_space c then groups true s1
      else
        match s1 with
        | String c2 (String c3 s3) =>
            if is_dash c && is_dash c2 && is_dash c3
            then let '(n, r) := groups true s3 in (S n, r)
            else (0, s)
        | _ => (0, s)
        end
  end.

(** [dedupRegex.ReplaceAll src repl] for a [repl] without [$]: matches are
    taken from the left and do not overlap.  [skip] counts the bytes of
    the match just replaced that are still to be passed. *)
Fixpoint dedup_from (repl : string) (skip : nat) (s : string) : string :=
  match s with
  | "" => ""
  | String c s' =>
      match skip with
      | S k => dedup_from repl k s'
      | O =>
          let '(n, rest) := groups false s in
          if (2 <=? n)%nat
          then repl +:+ dedup_from repl (String.length s - String.length rest - 1) s'
          else String c (dedup_from repl 0 s')
      end
  end.

Definition dedupRegex_ReplaceAll (src repl : string) : string :=
  dedup_from repl 0 src.

(** The two statements under [// cleanup] in [Find]. *)
Definition cleanup (configData : string) : string :=
  let configData := strings_ReplaceAll configData "..." "" in
  dedupRegex_ReplaceAll configData "---".

(** The two passes of the clean-up. *)
Abbreviation strip := (replace_from "..." "" 0).
Abbreviation collapse := (dedup_from "---" 0).

(** The text after the white space at the head of [s], and [s] without
    its first [n] bytes. *)
Fixpoint skip_ws (s : string) : string :=
  match s with
  | "" => ""
  | String c s' => if is_space c then skip_ws s' else s
  end.

Fixpoint drop_bytes (n : nat) (s : string) : string :=
  match n, s with
  | S k, String _ s' => drop_bytes k s'
  | _, _ => s
  end.

Definition starts_with_dash (s : string) : bool :=
  match s with
  | "" => false
  | String c _ => is_dash c
  end.

(** The texts on which a second clean-up changes nothing: no run of
    separators that [dedupRegex.ReplaceAll] replaces stands directly after
    a hyphen or directly before one.  The function follows [dedup_from];
    [after_dash] tells that the text written so far ends in a hyphen. *)
Fixpoint isolated_from (skip : nat) (after_dash : bool) (s : string) : bool :=
  match s with
  | "" => true
  | String c s' =>
      match skip with
      | S k => isolated_from k after_dash s'
      | O =>
          let '(n, rest) := groups false s in
          if (2 <=? n)%nat
          then negb after_dash && negb (starts_with_dash rest)
               && isolated_from (String.length s - String.length rest - 1) true s'
          else isolated_from 0 (is_dash c) s'
      end
  end.

Definition runs_isolated (s : string) : bool := isolated_from 0 false s.

(** [sub] occurs in [s]. *)
Definition occurs (sub s : string) : Prop := exists a b, s = a +:+ sub +:+ b.

Fixpoint contains (sub s : string) : bool :=
  strings_HasPrefix s sub ||
  match s with
  | "" => false
  | String _ s' => contains sub s'
  end.

(** [n] separator lines. *)
Fixpoint separator_lines (n : nat) : string :=
  match n with
  | O => ""
  | S k => "---" +:+ LF +:+ separator_lines k
  end.

Fixpoint has_dots3 (s : string) : bool :=
  strings_HasPrefix s "..." ||
  match s with
  | "" => false
  | String _ s' => has_dots3 s'
  end.

(** ** [droneConfigAppend] *)

Definition append_one (droneConfig a : string) : string :=
  let a := strings_Trim a (" " +:+ LF) in
  if negb (String.eqb a "") then
    let a := if negb (strings_HasPrefix a ("---" +:+ LF)) then "---" +:+ LF +:+ a else a in
    let droneConfig := droneConfig +:+ a in
    if negb (strings_HasSuffix droneConfig LF) then droneConfig +:+ LF else droneConfig
  else droneConfig.

Definition droneConfigAppend (droneConfig : string) (appends : list string) : string :=
  fold_left append_one appends droneConfig.

(** What a fragment with some content adds to the accumulator: the
    trimmed fragment, after a separator line unless it starts with one,
    and a line feed. *)
Definition document (a : string) : string :=
  let t := strings_Trim a (" " +:+ LF) in
  (if strings_HasPrefix t ("---" +:+ LF) then t else "---" +:+ LF +:+ t) +:+ LF.




(** ** Data of the plugin and of its collaborators *)

Record plugin := {
  server : string;
  token : string;
  concat : bool;
  fallback : bool;
  maxDepth : Z
}.

(** [New]. *)
Definition New (server token : string) (concat fallback : bool) (maxDepth : Z) : plugin :=
  {| server := server; token := token; concat := concat; fallback := fallback;
     maxDepth := maxDepth |}.

Record droneConfig := { Name : string; Kind : string }.

(** The fields of [drone.Build] and [drone.Repo] that the plugin reads. *)
Record drone_Build := { Trigger : string; Ref : string; Before : string; After : string }.
Record drone_Repo := { Slug : string; Config : string }.
Record config_Request := { Build : drone_Build; Repo : drone_Repo }.
Record drone_Config := { Data : string }.

(** What go-scm returns: a changed file, and the content of a path. *)
Record scm_Change := { Path : string }.
Record scm_Content := { ContentPath : string; ContentData : string }.

(** The services of [scm.Client] that the plugin calls.  The response
    value in the middle of go-scm's results is always discarded by the
    plugin and is left out. *)
Record scm_Client := {
  PullRequests_ListChanges : string -> Z -> list scm_Change * option error;
  Git_ListChanges : string -> string -> list scm_Change * option error;
  Contents_Find : string -> string -> string -> option scm_Content * option error
}.

Record request := { Request : config_Request; Client : scm_Client }.

(** One call to the SCM, with its arguments. *)
Inductive Call :=
| CallPullRequestChanges (slug : string) (number : Z)
| CallGitChanges (slug ref : string)
| CallContentsFind (slug path ref : string).

(** How a Go function ends: it returns, it panics on a nil pointer, or the
    model ran out of fuel in a loop. *)
Inductive outcome (A : Type) :=
| Returns (a : A)
| Panics
| OutOfFuel.
Arguments Returns {A} a.
Arguments Panics {A}.
Arguments OutOfFuel {A}.

(** Computations that add to the log of SCM calls. *)
Definition M (A : Type) : Type := list Call -> A * list Call.

#[global] Instance M_ret : MRet M := fun A a log => (a, log).
#[global] Instance M_bind : MBind M :=
  fun A B k m log => let '(a, log') := m log in k a log'.
Definition emit (c : Call) : M unit := fun log => (tt, log ++ [c]).
Definition ret {A} (a : A) : M A := mret a.

Definition run {A} (m : M A) : A * list Call := m [].

(** How the inner loop of [getScmConfigData] is left: the loop ends and the
    next changed file is taken, or the function returns. *)
Inductive flow :=
| Continue (cache : gmap string bool) (configData : string)
| Return (configData : string) (err : option error).

Section Plugin.

(** [yaml.Unmarshal] into a [droneConfig], and the two constructors of the
    go-scm github driver, are outside the repository. *)
Variable yaml_Unmarshal : string -> droneConfig + error.
Variable github_NewDefault : scm_Client.
Variable github_New : string -> scm_Client + error.

Definition git_list_changes (req : request) (slug ref : string) : M (list scm_Change * option error) :=
  _ ← emit (CallGitChanges slug ref);
  ret (Git_ListChanges (Client req) slug ref).

Definition pr_list_changes (req : request) (slug : string) (number : Z) : M (list scm_Change * option error) :=
  _ ← emit (CallPullRequestChanges slug number);
  ret (PullRequests_ListChanges (Client req) slug number).

Definition contents_find (req : request) (slug path ref : string) : M (option scm_Content * option error) :=
  _ ← emit (CallContentsFind slug path ref);
  ret (Contents_Find (Client req) slug path ref).

(** The end of [getScmChanges]: a list without elements is returned as
    [nil]. *)
Definition changes_result (changedFiles : list string) : option (list string) * option error :=
  if (0 <? length changedFiles)%nat then (Some changedFiles, None) else (None, None).

(** [getScmChanges].  The result is Go's pair of a slice ([None] is [nil])
    and an error. *)
Definition getScmChanges (p : plugin) (req : request) : M (option (list string) * option error) :=
  let b := Build (Request req) in
  let slug := Slug (Repo (Request req)) in
  if String.eqb (Trigger b) "@cron" then
    ret (changes_result [])
  else if strings_HasPrefix (Ref b) "refs/pull/" then
    match strconv_Atoi (nth 2 (strings_Split (Ref b) "/"%char) "") with
    | inr err => ret (None, Some err)
    | inl pullRequestID =>
        '(files, err) ← pr_list_changes req slug pullRequestID;
        match err with
        | Some e => ret (None, Some e)
        | None => ret (changes_result (map Path files))
        end
    end
  else
    let before := Before b in
    let before :=
      if String.eqb before "0000000000000000000000000000000000000000" || String.eqb before ""
      then After b +:+ "~1" else before in
    '(changes, err) ← git_list_changes req slug (After b);
    match err with
    | Some e => ret (None, Some e)
    | None => ret (changes_result (map Path changes))
    end.

(** [getScmFile]. *)
Definition getScmFile (p : plugin) (req : request) (file : string) : M (string * option error) :=
  '(data, err) ← contents_find req (Slug (Repo (Request req))) file (After (Build (Request req)));
  match data, err with
  | None, _ => ret ("", Some ("failed to get " +:+ file +:+ ": is not a file"))
  | Some _, Some e => ret ("", Some e)
  | Some d, None => ret (ContentData d, None)
  end.

(** [getScmDroneConfig]: content, the [critical] flag and the error. *)
Definition getScmDroneConfig (p : plugin) (req : request) (file : string)
  : M (string * bool * option error) :=
  '(fileContent, err) ← getScmFile p req file;
  match err with
  | Some e => ret ("", false, Some e)
  | None =>
      match yaml_Unmarshal fileContent with
      | inr e => ret ("", true, Some e)
      | inl dc =>
          if String.eqb (Name dc) "" || String.eqb (Kind dc) ""
          then ret ("", true, None)
          else ret (fileContent, false, None)
      end
  end.

(** The loop [for !done] of [getScmConfigData]. *)
Fixpoint walk (p : plugin) (req : request) (fuel : nat) (done : bool) (dir : string)
    (cache : gmap string bool) (configData : string) {struct fuel} : M (outcome flow) :=
  if done then ret (Returns (Continue cache configData))
  else
    match fuel with
    | O => ret OutOfFuel
    | S fuel' =>
        let done := String.eqb dir "/" in
        let dir := path_Join [dir; ".."] in
        let file := path_Join [dir; Config (Repo (Request req))] in
        match cache !! file with
        | Some _ => walk p req fuel' done dir cache configData
        | None =>
            let cache := <[file := true]> cache in
            '(fileContent, critical, err) ← getScmDroneConfig p req file;
            match err with
            | Some e =>
                if (critical : bool) then ret (Returns (Return "" (Some e)))
                else walk p req fuel' done dir cache configData
            | None =>
                let configData := droneConfigAppend configData [fileContent] in
                if negb (concat p) then ret (Returns (Continue cache configData))
                else walk p req fuel' done dir cache configData
            end
        end
    end.

(** The loop over the changed files. *)
Fixpoint scan_changed (p : plugin) (req : request) (changedFiles : list string)
    (cache : gmap string bool) (configData : string) : M (outcome flow) :=
  match changedFiles with
  | [] => ret (Returns (Continue cache configData))
  | file :: rest =>
      let file := if negb (strings_HasPrefix file "/") then "/" +:+ file else file in
      r ← walk p req (String.length file + 2) false file cache configData;
      match r with
      | Returns (Continue cache configData) => scan_changed p req rest cache configData
      | _ => ret r
      end
  end.

(** [getScmConfigData]. *)
Definition getScmConfigData (p : plugin) (req : request) (changedFiles : list string)
  : M (outcome (string * option error)) :=
  r ← scan_changed p req changedFiles ∅ "";
  match r with
  | Returns (Continue _ configData) => ret (Returns (configData, None))
  | Returns (Return configData err) => ret (Returns (configData, err))
  | Panics => ret Panics
  | OutOfFuel => ret OutOfFuel
  end.

(** [getAllConfigData].  The loop over the directory entries is commented
    out in the source; what is left turns the listing into an error. *)
Definition getAllConfigData (p : plugin) (req : request) (dir : string) (depth : Z)
  : M (outcome (string * option error)) :=
  '(ls, err) ← contents_find req (Slug (Repo (Request req))) dir (After (Build (Request req)));
  match err with
  | Some e => ret (Returns ("", Some e))
  | None =>
      if (maxDepth p <? depth)%Z then ret (Returns ("", None))
      else
        let depth := (depth + 1)%Z in
        let configData := "" in
        match ls with
        | None => ret Panics
        | Some c => ret (Returns (configData, Some (ContentData c)))
        end
  end.

(** [Find]. *)
Definition Find (p : plugin) (droneRequest : config_Request) : M (outcome (drone_Config + error)) :=
  match (if String.eqb (server p) "" then inl github_NewDefault else github_New (server p)) with
  | inr err => ret (Returns (inr err))
  | inl client =>
      let req := {| Request := droneRequest; Client := client |} in
      '(changedFiles, err) ← getScmChanges p req;
      match err with
      | Some e => ret (Returns (inr e))
      | None =>
          r ← (match changedFiles with
               | Some files => getScmConfigData p req files
               | None =>
                   if String.eqb (Trigger (Build droneRequest)) "@cron"
                   then getAllConfigData p req "/" 0
                   else if fallback p then getAllConfigData p req "/" 0
                   else ret (Returns ("", None))
               end);
          match r with
          | Returns (configData, Some e) => ret (Returns (inr e))
          | Returns (configData, None) =>
              if String.eqb configData "" then ret (Returns (inr "did not find a .drone.yml"))
              else ret (Returns (inl {| Data := cleanup configData |}))
          | Panics => ret Panics
          | OutOfFuel => ret OutOfFuel
          end
      end
  end.

End Plugin.

(** The paths that were requested from the content service, in the
    order of the requests. *)
Fixpoint fetched (log : list Call) : list string :=
  match log with
  | [] => []
  | CallContentsFind _ path _ :: rest => path :: fetched rest
  | _ :: rest => fetched rest
  end.

(** The changed files that the SCM reports for an event that is not
    scheduled, when it answers without an error. *)
Definition listed_changes (req : request) : option (list string) :=
  let b := Build (Request req) in
  let slug := Slug (Repo (Request req)) in
  if strings_HasPrefix (Ref b) "refs/pull/" then
    match strconv_Atoi (nth 2 (strings_Split (Ref b) "/"%char) "") with
    | inl number =>
        match PullRequests_ListChanges (Client req) slug number with
        | (files, None) => Some (map Path files)
        | (_, Some _) => None
        end
    | inr _ => None
    end
  else
    match Git_ListChanges (Client req) slug (After b) with
    | (changes, None) => Some (map Path changes)
    | (_, Some _) => None
    end.

(** The cache covers the log: every path that was fetched is in the
    cache, and none was fetched twice. *)
Definition seen_covers (cache : gmap string bool) (log : list Call) : Prop :=
  NoDup (fetched log) /\ forall path, In path (fetched log) -> cache !! path <> None.

(** ** Fixtures for concrete scenarios *)

(** A repository at one revision: the files it holds, and the changed
    files that both listing services report.  A path that is not in the
    repository is answered as the github driver of go-scm does, with an
    empty content and an error. *)
Fixpoint lookup_file (files : list (string * string)) (path : string) : option string :=
  match files with
  | [] => None
  | (name, data) :: rest => if String.eqb name path then Some data else lookup_file rest path
  end.

Definition repo_client (files : list (string * string)) (changed : list string) : scm_Client :=
  {| PullRequests_ListChanges := fun _ _ => (map (fun f => {| Path := f |}) changed, None);
     Git_ListChanges := fun _ _ => (map (fun f => {| Path := f |}) changed, None);
     Contents_Find := fun _ path _ =>
       match lookup_file files path with
       | Some data => (Some {| ContentPath := path; ContentData := data |}, None)
       | None => (Some {| ContentPath := path; ContentData := "" |}, Some "Not Found")
       end |}.

(** A pipeline document with the two fields that are validated. *)
Definition pipeline (name : string) : string :=
  "kind: pipeline" +:+ LF +:+ "name: " +:+ name +:+ LF.

(** The value of [yaml.Unmarshal] on the documents of the scenarios: the
    pipelines above, a document without a name, and one that is no YAML. *)
Definition scenario_yaml (content : string) : droneConfig + error :=
  if String.eqb content (pipeline "ab") then inl {| Name := "ab"; Kind := "pipeline" |}
  else if String.eqb content (pipeline "a") then inl {| Name := "a"; Kind := "pipeline" |}
  else if String.eqb content (pipeline "b") then inl {| Name := "b"; Kind := "pipeline" |}
  else if String.eqb content (pipeline "root") then inl {| Name := "root"; Kind := "pipeline" |}
  else if String.eqb content ("kind: pipeline" +:+ LF) then inl {| Name := ""; Kind := "pipeline" |}
  else inr "yaml: line 1: did not find expected node content".

(** The repository of the scenario with two nested configurations: one in
    /a/b, one in /a, none at the root; a file changed in each of the two
    directories. *)
Definition nested_repo (inner outer : string) : scm_Client :=
  repo_client [("/a/b/.pipeline.yml", inner); ("/a/.pipeline.yml", outer)]
              ["a/b/x.go"; "a/y.go"].

(** A repository whose configuration in /a has no name, with a valid one
    at the root. *)
Definition nameless_repo : scm_Client :=
  repo_client [("/a/.drone.yml", "kind: pipeline" +:+ LF); ("/.drone.yml", pipeline "root")]
              ["a/x.go"].

(** A repository without changed files, whose root can be listed. *)
Definition quiet_repo : scm_Client :=
  repo_client [("/", ".drone.yml"); ("/.drone.yml", pipeline "root")] [].

(** A repository without any configuration, and one whose configuration
    in /a is no YAML. *)
Definition empty_repo : scm_Client := repo_client [] ["a/b/x.go"; "c.go"].

Definition broken_repo : scm_Client :=
  repo_client [("/a/.drone.yml", "kind: [" +:+ LF); ("/.drone.yml", pipeline "root")]
              ["a/x.go"; "b/y.go"].

Definition scenario_plugin (concat fallback : bool) : plugin :=
  {| server := ""; token := "t"; concat := concat; fallback := fallback; maxDepth := 2 |}.

Definition push_event (config before after : string) : config_Request :=
  {| Build := {| Trigger := "push"; Ref := "refs/heads/master"; Before := before; After := after |};
     Repo := {| Slug := "octo/mono"; Config := config |} |}.

Definition pull_event (config ref after : string) : config_Request :=
  {| Build := {| Trigger := "pull_request"; Ref := ref; Before := ""; After := after |};
     Repo := {| Slug := "octo/mono"; Config := config |} |}.

Definition cron_event (config after : string) : config_Request :=
  {| Build := {| Trigger := "@cron"; Ref := "refs/heads/master"; Before := ""; After := after |};
     Repo := {| Slug := "octo/mono"; Config := config |} |}.

(** [Find] on a repository reached through the default client. *)
Definition resolve (p : plugin) (client : scm_Client) (ev : config_Request)
  : outcome (drone_Config + error) * list Call :=
  run (Find scenario_yaml client (fun _ => inl client) p ev).

(** Two pipelines, the first closed by an end-of-document token and a
    separator of its own. *)
Definition two_pipelines : string :=
  "---" +:+ LF +:+ "kind: pipeline" +:+ LF +:+ "name: a" +:+ LF +:+ "steps:" +:+ LF
  +:+ "- name: build" +:+ LF +:+ "..." +:+ LF +:+ "---" +:+ LF
  +:+ "---" +:+ LF +:+ "kind: pipeline" +:+ LF +:+ "name: b" +:+ LF.



(** What [getScmDroneConfig] returns for a path: the content, the
    critical flag and the error. *)
Definition candidate (yaml : string -> droneConfig + error) (p : plugin) (req : request)
    (file : string) : string * bool * option error :=
  fst (getScmDroneConfig yaml p req file []).

(** * Properties *)

#[local] Arguments String.append !_ _ / : simpl nomatch.
Arguments is_dash : simpl never.
Arguments is_space : simpl never.
Arguments is_dot : simpl never.

(** ** Strings *)

Lemma append_nil_r (s : string) : s +:+ "" = s.
Proof. induction s as [|c s IH]; simpl; [reflexivity | now rewrite IH]. Qed.

Lemma append_assoc (a b c : string) : (a +:+ b) +:+ c = a +:+ (b +:+ c).
Proof. induction a as [|x a IH]; simpl; [reflexivity | now rewrite IH]. Qed.

Lemma length_append (a b : string) :
  String.length (a +:+ b) = String.length a + String.length b.
Proof. induction a as [|x a IH]; simpl; [reflexivity | now rewrite IH]. Qed.

Lemma is_dash_true (c : ascii) : is_dash c = true -> c = "-"%char.
Proof. unfold is_dash. apply Ascii.eqb_eq. Qed.

Lemma is_dot_true (c : ascii) : is_dot c = true -> c = "."%char.
Proof. unfold is_dot. apply Ascii.eqb_eq. Qed.

Lemma dash_not_space (c : ascii) : is_dash c = true -> is_space c = false.
Proof. intros H. apply is_dash_true in H. subst c. reflexivity. Qed.

Lemma dash_not_dot (c : ascii) : is_dash c = true -> is_dot c = false.
Proof. intros H. apply is_dash_true in H. subst c. reflexivity. Qed.

(** Induction on the length of a string. *)
Lemma string_length_ind (P : string -> Prop) :
  (forall s, (forall t, String.length t < String.length s -> P t) -> P s) ->
  forall s, P s.
Proof.
  intros step s.
  assert (H : forall n t, String.length t < n -> P t).
  { induction n as [|n IH]; intros t Hlt; [lia|].
    apply step. intros u Hu. apply IH. lia. }
  apply (H (S (String.length s))). lia.
Qed.

(** ** The groups of [dedupRegex] *)

Lemma groups_true_skip (s : string) : groups true s = groups false (skip_ws s).
Proof.
  induction s as [|c s IH]; [reflexivity|].
  cbn [groups skip_ws andb]. destruct (is_space c) eqn:E; [exact IH|].
  cbn [groups andb]. reflexivity.
Qed.

Lemma groups_false_dashes (s3 : string) :
  groups false ("---" +:+ s3) =
  (S (fst (groups false (skip_ws s3))), snd (groups false (skip_ws s3))).
Proof.
  cbn. rewrite groups_true_skip. now destruct (groups false (skip_ws s3)).
Qed.

Lemma groups_false_other (s : string) :
  strings_HasPrefix s "---" = false -> groups false s = (0, s).
Proof.
  destruct s as [|c [|c2 [|c3 s3]]]; try reflexivity.
  cbn. fold (is_dash c) (is_dash c2) (is_dash c3).
  rewrite andb_true_r, !andb_assoc. intros ->. reflexivity.
Qed.

Lemma has_prefix_dashes (s : string) :
  strings_HasPrefix s "---" = true -> s = "---" +:+ drop_bytes 3 s.
Proof.
  destruct s as [|c [|c2 [|c3 s3]]]; cbn; try discriminate;
    rewrite ?andb_false_r; try discriminate.
  rewrite andb_true_r. intros H.
  apply andb_prop in H as [H1 H]. apply andb_prop in H as [H2 H3].
  apply Ascii.eqb_eq in H1, H2, H3. now subst.
Qed.

Lemma has_prefix_dashes_app (s : string) : strings_HasPrefix ("---" +:+ s) "---" = true.
Proof. reflexivity. Qed.

Lemma groups_suffix (s : string) :
  forall ws, exists m, s = m +:+ snd (groups ws s).
Proof.
  induction s as [s IH] using string_length_ind. intros ws.
  destruct ws.
  - rewrite groups_true_skip.
    destruct s as [|c s1]; [exists ""; reflexivity|].
    cbn [skip_ws]. destruct (is_space c) eqn:E.
    + destruct (IH s1 ltac:(simpl; lia) true) as [m Hm].
      rewrite groups_true_skip in Hm.
      exists (String c m). simpl. now rewrite <- Hm.
    + destruct (strings_HasPrefix (String c s1) "---") eqn:P.
      * apply has_prefix_dashes in P. rewrite P. rewrite groups_false_dashes. cbn [snd].
        rewrite <- groups_true_skip.
        destruct (IH (drop_bytes 3 (String c s1))) with (ws := true) as [m Hm].
        { rewrite P at 2. rewrite length_append. simpl. lia. }
        exists ("---" +:+ m). rewrite append_assoc. now rewrite <- Hm.
      * rewrite (groups_false_other _ P). exists "". reflexivity.
  - destruct (strings_HasPrefix s "---") eqn:P.
    + apply has_prefix_dashes in P. rewrite P. rewrite groups_false_dashes. cbn [snd].
      rewrite <- groups_true_skip.
      destruct (IH (drop_bytes 3 s)) with (ws := true) as [m Hm].
      { rewrite P at 2. rewrite length_append. simpl. lia. }
      exists ("---" +:+ m). rewrite append_assoc. now rewrite <- Hm.
    + rewrite (groups_false_other _ P). exists "". reflexivity.
Qed.

Lemma dashes_inv (s : string) :
  strings_HasPrefix s "---" = true -> exists r, s = "---" +:+ r.
Proof. intros P. exists (drop_bytes 3 s). now apply has_prefix_dashes. Qed.

Lemma groups_length (ws : bool) (s : string) :
  String.length (snd (groups ws s)) <= String.length s.
Proof.
  destruct (groups_suffix s ws) as [m Hm].
  rewrite Hm at 2. rewrite length_append. lia.
Qed.

Lemma skip_ws_length (s : string) : String.length (skip_ws s) <= String.length s.
Proof.
  induction s as [|c s IH]; [reflexivity|].
  cbn [skip_ws]. destruct (is_space c); simpl in *; lia.
Qed.

(** The expression matches at the head of [s]. *)
Lemma groups_two (s : string) :
  (2 <=? fst (groups false s))%nat =
  strings_HasPrefix s "---" && strings_HasPrefix (skip_ws (drop_bytes 3 s)) "---".
Proof.
  destruct (strings_HasPrefix s "---") eqn:P.
  - destruct (dashes_inv s P) as [r ->]. rewrite groups_false_dashes.
    change (drop_bytes 3 ("---" +:+ r)) with r. cbn [fst andb].
    destruct (strings_HasPrefix (skip_ws r) "---") eqn:Q.
    + destruct (dashes_inv _ Q) as [r' ->]. rewrite groups_false_dashes. reflexivity.
    + rewrite (groups_false_other _ Q). reflexivity.
  - rewrite (groups_false_other _ P). reflexivity.
Qed.

Lemma groups_progress (s : string) :
  1 <= fst (groups false s) ->
  String.length (snd (groups false s)) + 3 <= String.length s.
Proof.
  intros H. destruct (strings_HasPrefix s "---") eqn:P.
  - destruct (dashes_inv s P) as [r ->]. rewrite groups_false_dashes. cbn [snd].
    rewrite length_append. simpl.
    pose proof (groups_length false (skip_ws r)).
    pose proof (skip_ws_length r). lia.
  - rewrite (groups_false_other _ P) in H. simpl in H. lia.
Qed.

Lemma skip_ws_idem (s : string) : skip_ws (skip_ws s) = skip_ws s.
Proof.
  induction s as [|c r IHr]; [reflexivity|].
  cbn [skip_ws]. destruct (is_space c) eqn:E; [exact IHr|].
  cbn [skip_ws]. now rewrite E.
Qed.

(** What follows a match starts neither with white space nor with a
    further separator. *)
Lemma groups_rest_no_space (s : string) :
  1 <= fst (groups false s) ->
  skip_ws (snd (groups false s)) = snd (groups false s).
Proof.
  induction s as [s IH] using string_length_ind. intros H.
  destruct (strings_HasPrefix s "---") eqn:P.
  - destruct (dashes_inv s P) as [r0 ->]. rewrite groups_false_dashes. cbn [snd].
    destruct (strings_HasPrefix (skip_ws r0) "---") eqn:Q.
    + apply IH.
      * pose proof (skip_ws_length r0). rewrite length_append. simpl. lia.
      * destruct (dashes_inv _ Q) as [r' ->]. rewrite groups_false_dashes. simpl. lia.
    + rewrite (groups_false_other _ Q). cbn [snd]. apply skip_ws_idem.
  - rewrite (groups_false_other _ P) in H. simpl in H. lia.
Qed.

Lemma groups_rest_no_sep (s : string) :
  strings_HasPrefix (snd (groups false s)) "---" = false.
Proof.
  induction s as [s IH] using string_length_ind.
  destruct (strings_HasPrefix s "---") eqn:P.
  - destruct (dashes_inv s P) as [r ->]. rewrite groups_false_dashes. cbn [snd].
    apply IH. pose proof (skip_ws_length r).
    rewrite length_append. simpl. lia.
  - rewrite (groups_false_other _ P). exact P.
Qed.

(** ** [dedupRegex.ReplaceAll] *)

Lemma dedup_skip (repl m r : string) :
  dedup_from repl (String.length m) (m +:+ r) = dedup_from repl 0 r.
Proof. induction m as [|c m IH]; [reflexivity | exact IH]. Qed.

Lemma dedup_match (repl s : string) :
  2 <= fst (groups false s) ->
  dedup_from repl 0 s = repl +:+ dedup_from repl 0 (snd (groups false s)).
Proof.
  intros H.
  pose proof (groups_progress s ltac:(lia)) as Hp.
  destruct (groups_suffix s false) as [m Hm].
  destruct s as [|c s']; [simpl in H; lia|].
  cbn [dedup_from].
  destruct (groups false (String c s')) as [n rest] eqn:G. cbn [fst snd] in *.
  destruct (Nat.leb_spec 2 n) as [_|]; [|lia].
  f_equal.
  destruct m as [|c' m'].
  - simpl in Hm. rewrite <- Hm in Hp. lia.
  - simpl in Hm. injection Hm as -> Hs'. clear G Hp. subst s'.
    cbn [String.length]. rewrite length_append.
    replace (S (String.length m' + String.length rest) - String.length rest - 1)
      with (String.length m') by lia.
    apply dedup_skip.
Qed.

Lemma dedup_no_match (repl : string) (c : ascii) (s' : string) :
  fst (groups false (String c s')) < 2 ->
  dedup_from repl 0 (String c s') = String c (dedup_from repl 0 s').
Proof.
  intros H. cbn [dedup_from].
  destruct (groups false (String c s')) as [n rest]. cbn [fst] in H.
  destruct (Nat.leb_spec 2 n); [lia | reflexivity].
Qed.

Lemma groups_no_dash (c : ascii) (s' : string) :
  is_dash c = false -> groups false (String c s') = (0, String c s').
Proof.
  intros H. apply groups_false_other. cbn. fold (is_dash c). now rewrite H.
Qed.

Lemma dedup_no_dash (repl : string) (c : ascii) (s' : string) :
  is_dash c = false ->
  dedup_from repl 0 (String c s') = String c (dedup_from repl 0 s').
Proof.
  intros H. apply dedup_no_match. rewrite (groups_no_dash _ _ H). simpl. lia.
Qed.

(** ** Isolated separator runs *)

Lemma isolated_skip (b : bool) (m r : string) :
  isolated_from (String.length m) b (m +:+ r) = isolated_from 0 b r.
Proof. induction m as [|c m IH]; [reflexivity | exact IH]. Qed.

Lemma isolated_match (b : bool) (s : string) :
  2 <= fst (groups false s) ->
  isolated_from 0 b s =
  negb b && negb (starts_with_dash (snd (groups false s)))
  && isolated_from 0 true (snd (groups false s)).
Proof.
  intros H.
  pose proof (groups_progress s ltac:(lia)) as Hp.
  destruct (groups_suffix s false) as [m Hm].
  destruct s as [|c s']; [simpl in H; lia|].
  cbn [isolated_from].
  destruct (groups false (String c s')) as [n rest] eqn:G. cbn [fst snd] in *.
  destruct (Nat.leb_spec 2 n) as [_|]; [|lia].
  f_equal.
  destruct m as [|c' m'].
  - simpl in Hm. rewrite <- Hm in Hp. lia.
  - simpl in Hm. injection Hm as -> Hs'. clear G Hp. subst s'.
    cbn [String.length]. rewrite length_append.
    replace (S (String.length m' + String.length rest) - String.length rest - 1)
      with (String.length m') by lia.
    apply isolated_skip.
Qed.

Lemma isolated_no_match (b : bool) (c : ascii) (s' : string) :
  fst (groups false (String c s')) < 2 ->
  isolated_from 0 b (String c s') = isolated_from 0 (is_dash c) s'.
Proof.
  intros H. cbn [isolated_from].
  destruct (groups false (String c s')) as [n rest]. cbn [fst] in H.
  destruct (Nat.leb_spec 2 n); [lia | reflexivity].
Qed.

(** Directly after a hyphen no run is replaced. *)
Lemma isolated_after_dash (c : ascii) (s' : string) :
  isolated_from 0 true (String c s') = true ->
  fst (groups false (String c s')) < 2 /\ isolated_from 0 (is_dash c) s' = true.
Proof.
  intros H.
  destruct (Nat.le_gt_cases 2 (fst (groups false (String c s')))) as [G|G].
  - rewrite (isolated_match _ _ G) in H. discriminate H.
  - split; [exact G|]. now rewrite (isolated_no_match _ _ _ G) in H.
Qed.

Lemma isolated_skip_ws (b : bool) (s : string) :
  isolated_from 0 b s = true -> exists b', isolated_from 0 b' (skip_ws s) = true.
Proof.
  revert b. induction s as [|c s IH]; intros b H; [exists b; exact H|].
  cbn [skip_ws]. destruct (is_space c) eqn:E; [|exists b; exact H].
  assert (D : is_dash c = false).
  { destruct (is_dash c) eqn:D; [|reflexivity]. apply dash_not_space in D. congruence. }
  rewrite isolated_no_match in H by (rewrite (groups_no_dash _ _ D); simpl; lia).
  eapply IH. exact H.
Qed.

Lemma collapse_skip_ws (s : string) : skip_ws (collapse s) = collapse (skip_ws s).
Proof.
  induction s as [|c s IH]; [reflexivity|].
  cbn [skip_ws]. destruct (is_space c) eqn:E.
  - assert (D : is_dash c = false).
    { destruct (is_dash c) eqn:D; [|reflexivity]. apply dash_not_space in D. congruence. }
    rewrite (dedup_no_dash _ _ _ D). cbn [skip_ws]. now rewrite E.
  - destruct (Nat.le_gt_cases 2 (fst (groups false (String c s)))) as [G|G].
    + rewrite (dedup_match _ _ G). reflexivity.
    + rewrite (dedup_no_match _ _ _ G). cbn [skip_ws]. now rewrite E.
Qed.

(** After a hyphen the first byte is copied. *)
Lemma collapse_after_dash (c : ascii) (s' : string) :
  isolated_from 0 true (String c s') = true ->
  collapse (String c s') = String c (collapse s').
Proof.
  intros H. apply isolated_after_dash in H as [G _]. now apply dedup_no_match.
Qed.

(** A separator at the head of the result stood at the head of the text. *)
Lemma collapse_head_sep (b : bool) (s : string) :
  isolated_from 0 b s = true ->
  strings_HasPrefix (collapse s) "---" = true ->
  exists s3, s = "---" +:+ s3 /\
    (fst (groups false s) < 2 ->
     collapse s = "---" +:+ collapse s3 /\ isolated_from 0 true s3 = true).
Proof.
  intros I P.
  destruct (Nat.le_gt_cases 2 (fst (groups false s))) as [G|G].
  - assert (Q : strings_HasPrefix s "---" = true).
    { apply Nat.leb_le in G. rewrite groups_two in G. now apply andb_prop in G as [G _]. }
    destruct (dashes_inv _ Q) as [s3 ->]. exists s3. split; [reflexivity | lia].
  - destruct s as [|c1 s1]; [discriminate P|].
    rewrite (dedup_no_match _ _ _ G) in P. rewrite (isolated_no_match _ _ _ G) in I.
    cbn [strings_HasPrefix] in P. apply andb_prop in P as [D1 P].
    fold (is_dash c1) in D1. rewrite D1 in I.
    destruct s1 as [|c2 s2]; [discriminate P|].
    pose proof (collapse_after_dash _ _ I) as E2. apply isolated_after_dash in I as [_ I].
    rewrite E2 in P. cbn [strings_HasPrefix] in P. apply andb_prop in P as [D2 P].
    fold (is_dash c2) in D2. rewrite D2 in I.
    destruct s2 as [|c3 s3]; [discriminate P|].
    pose proof (collapse_after_dash _ _ I) as E3. apply isolated_after_dash in I as [_ I].
    rewrite E3 in P. cbn [strings_HasPrefix] in P. apply andb_prop in P as [D3 _].
    fold (is_dash c3) in D3. rewrite D3 in I.
    apply is_dash_true in D1, D2, D3. subst c1 c2 c3.
    exists s3. split; [reflexivity|]. intros _. split; [|exact I].
    rewrite (dedup_no_match _ _ _ G), E2, E3. reflexivity.
Qed.

(** A separator that is followed neither by white space nor by a hyphen is
    copied. *)
Lemma collapse_sep_alone (y : string) :
  starts_with_dash y = false -> skip_ws y = y ->
  collapse ("---" +:+ y) = "---" +:+ collapse y.
Proof.
  intros D W.
  assert (P : strings_HasPrefix y "-" = false).
  { destruct y as [|c y]; [reflexivity|]. cbn in *. fold (is_dash c). now rewrite D. }
  assert (P3 : strings_HasPrefix y "---" = false).
  { destruct y as [|c y]; [reflexivity|]. cbn in *. fold (is_dash c). now rewrite D. }
  assert (P2 : strings_HasPrefix ("--" +:+ y) "---" = false) by exact P.
  assert (P1 : strings_HasPrefix ("-" +:+ y) "---" = false).
  { destruct y as [|c y]; [reflexivity|]. cbn in *. fold (is_dash c). now rewrite D. }
  change ("---" +:+ y) with (String "-" ("--" +:+ y)).
  rewrite dedup_no_match.
  2:{ apply Nat.lt_nge. intros G. apply Nat.leb_le in G. rewrite groups_two in G.
      change (drop_bytes 3 (String "-" ("--" +:+ y))) with y in G.
      rewrite W, P3, andb_false_r in G. discriminate G. }
  change ("--" +:+ y) with (String "-" ("-" +:+ y)).
  rewrite dedup_no_match by (rewrite groups_false_other; [simpl; lia | exact P2]).
  change ("-" +:+ y) with (String "-" y).
  rewrite dedup_no_match by (rewrite groups_false_other; [simpl; lia | exact P1]).
  reflexivity.
Qed.

Lemma collapse_head_other (s : string) :
  starts_with_dash s = false -> skip_ws s = s ->
  starts_with_dash (collapse s) = false /\ skip_ws (collapse s) = collapse s.
Proof.
  intros D W. destruct s as [|c s]; [split; reflexivity|].
  cbn in D. rewrite (dedup_no_dash _ _ _ D). cbn [starts_with_dash skip_ws].
  cbn [skip_ws] in W. destruct (is_space c) eqn:E; [|now split].
  exfalso. pose proof (skip_ws_length s) as L. rewrite W in L. simpl in L. lia.
Qed.

(** On a text with isolated runs, collapsing a second time changes
    nothing. *)
Lemma collapse_idempotent (s : string) :
  forall b, isolated_from 0 b s = true -> collapse (collapse s) = collapse s.
Proof.
  induction s as [s IH] using string_length_ind. intros b I.
  destruct (Nat.le_gt_cases 2 (fst (groups false s))) as [G|G].
  - rewrite (isolated_match _ _ G) in I.
    apply andb_prop in I as [I I3]. apply andb_prop in I as [_ I2].
    apply negb_true_iff in I2.
    pose proof (groups_progress s ltac:(lia)) as Hp.
    pose proof (groups_rest_no_space s ltac:(lia)) as W.
    destruct (collapse_head_other _ I2 W) as [D' W'].
    rewrite (dedup_match _ _ G).
    rewrite (collapse_sep_alone _ D' W').
    f_equal. apply (IH (snd (groups false s))) with (b := true); [lia | exact I3].
  - destruct s as [|c s']; [reflexivity|].
    rewrite (dedup_no_match _ _ _ G).
    pose proof I as I'. rewrite (isolated_no_match _ _ _ G) in I'.
    rewrite dedup_no_match;
      [f_equal; apply (IH s') with (b := is_dash c); [simpl; lia | exact I']|].
    apply Nat.lt_nge. intros G2. apply Nat.leb_le in G2. rewrite groups_two in G2.
    apply andb_prop in G2 as [Q1 Q2].
    rewrite <- (dedup_no_match "---" _ _ G) in Q1, Q2.
    destruct (collapse_head_sep _ _ I Q1) as [s3 [E0 K]].
    destruct (K G) as [E I3]. rewrite E in Q2. rewrite E0 in G.
    change (drop_bytes 3 ("---" +:+ collapse s3)) with (collapse s3) in Q2.
    rewrite collapse_skip_ws in Q2.
    destruct (isolated_skip_ws _ _ I3) as [b' I4].
    destruct (collapse_head_sep _ _ I4 Q2) as [s4 [E4 _]].
    assert (G' : (2 <=? fst (groups false ("---" +:+ s3)))%nat = true).
    { rewrite groups_two. change (drop_bytes 3 ("---" +:+ s3)) with s3.
      rewrite E4. reflexivity. }
    apply Nat.leb_le in G'. lia.
Qed.

(** ** Removing the end-of-document tokens *)

Lemma strip_dots (r : string) : strip ("..." +:+ r) = strip r.
Proof. reflexivity. Qed.

Lemma strip_other (c : ascii) (s' : string) :
  strings_HasPrefix (String c s') "..." = false ->
  strip (String c s') = String c (strip s').
Proof. intros H. cbn [replace_from]. now rewrite H. Qed.

Lemma dots_inv (s : string) :
  strings_HasPrefix s "..." = true -> exists r, s = "..." +:+ r.
Proof.
  destruct s as [|c [|c2 [|c3 s3]]]; cbn; try discriminate;
    rewrite ?andb_false_r; try discriminate.
  rewrite andb_true_r. intros H.
  apply andb_prop in H as [H1 H]. apply andb_prop in H as [H2 H3].
  apply Ascii.eqb_eq in H1, H2, H3. subst. now exists s3.
Qed.

Lemma has_prefix_dots_cons (c : ascii) (s : string) :
  strings_HasPrefix (String c s) "..." = is_dot c && strings_HasPrefix s "..".
Proof. reflexivity. Qed.

Lemma has_prefix_dots2_cons (c : ascii) (s : string) :
  strings_HasPrefix (String c s) ".." = is_dot c && strings_HasPrefix s ".".
Proof. reflexivity. Qed.

Lemma has_prefix_dot_cons (c : ascii) (s : string) :
  strings_HasPrefix (String c s) "." = is_dot c.
Proof. cbn. fold (is_dot c). apply andb_true_r. Qed.

(** The bytes at the head of the stripped text, when the text does not
    start with a token. *)
Lemma strip_head (s : string) :
  strings_HasPrefix s "..." = false ->
  strings_HasPrefix (strip s) ".." = strings_HasPrefix s ".." /\
  strings_HasPrefix (strip s) "." = strings_HasPrefix s ".".
Proof.
  intros H. destruct s as [|c s]; [split; reflexivity|].
  rewrite (strip_other _ _ H). rewrite !has_prefix_dot_cons. split; [|reflexivity].
  rewrite !has_prefix_dots2_cons. destruct (is_dot c) eqn:D; [|reflexivity].
  cbn [andb]. rewrite has_prefix_dots_cons, D in H. cbn [andb] in H.
  destruct s as [|c2 s]; [reflexivity|].
  assert (H2 : strings_HasPrefix (String c2 s) "..." = false).
  { rewrite has_prefix_dots_cons. rewrite has_prefix_dots2_cons in H.
    destruct (is_dot c2); [|reflexivity]. cbn [andb] in *.
    destruct s as [|c3 s]; [reflexivity|].
    rewrite has_prefix_dot_cons in H. rewrite has_prefix_dots2_cons, H. reflexivity. }
  rewrite (strip_other _ _ H2). now rewrite !has_prefix_dot_cons.
Qed.

Lemma strip_no_dots3 (s : string) : has_dots3 (strip s) = false.
Proof.
  induction s as [s IH] using string_length_ind.
  destruct (strings_HasPrefix s "...") eqn:P.
  - destruct (dots_inv _ P) as [r ->]. rewrite strip_dots.
    apply IH. rewrite length_append. simpl. lia.
  - destruct s as [|c s']; [reflexivity|].
    rewrite (strip_other _ _ P). cbn [has_dots3].
    rewrite (IH s') by (simpl; lia). rewrite orb_false_r.
    rewrite has_prefix_dots_cons in *. destruct (is_dot c); [|reflexivity].
    cbn [andb] in *.
    destruct (strings_HasPrefix s' "...") eqn:P'.
    + destruct (dots_inv _ P') as [r ->]. discriminate P.
    + destruct (strip_head _ P') as [E _]. now rewrite E.
Qed.

Lemma strip_fixed (s : string) : has_dots3 s = false -> strip s = s.
Proof.
  induction s as [|c s IH]; [reflexivity|].
  cbn [has_dots3]. intros H. apply orb_false_elim in H as [P H].
  rewrite (strip_other _ _ P). now rewrite IH.
Qed.

Lemma no_dots3_no_occurrence (s : string) :
  has_dots3 s = false -> ~ occurs "..." s.
Proof.
  intros H [a [b E]]. subst s. induction a as [|c a IH].
  - discriminate H.
  - apply IH. cbn [String.append has_dots3] in H. now apply orb_false_elim in H as [_ H].
Qed.

Lemma no_dots3_suffix (m r : string) :
  has_dots3 (m +:+ r) = false -> has_dots3 r = false.
Proof.
  induction m as [|c m IH]; [easy|].
  cbn [String.append has_dots3]. intros H. apply orb_false_elim in H as [_ H]. auto.
Qed.

(** Taking a token out of the text beforehand does not change the
    result. *)
Lemma strip_remove (a b : string) : strip (a +:+ "..." +:+ b) = strip (a +:+ b).
Proof.
  induction a as [a IH] using string_length_ind.
  set (t := "..." +:+ b) in *.
  destruct a as [|c1 a1]; [reflexivity|].
  cbn [String.append].
  destruct (is_dot c1) eqn:D1.
  2:{ rewrite (strip_other c1 (a1 +:+ t)), (strip_other c1 (a1 +:+ b))
        by (rewrite has_prefix_dots_cons, D1; reflexivity).
      f_equal. apply IH. simpl. lia. }
  apply is_dot_true in D1. subst c1.
  destruct a1 as [|c2 a2]; [reflexivity|].
  cbn [String.append].
  destruct (is_dot c2) eqn:D2.
  2:{ rewrite (strip_other "." (String c2 (a2 +:+ t))),
              (strip_other "." (String c2 (a2 +:+ b)))
        by (rewrite has_prefix_dots_cons, has_prefix_dots2_cons, D2; reflexivity).
      f_equal. apply (IH (String c2 a2)). simpl. lia. }
  apply is_dot_true in D2. subst c2.
  destruct a2 as [|c3 a3]; [reflexivity|].
  cbn [String.append].
  destruct (is_dot c3) eqn:D3.
  - apply is_dot_true in D3. subst c3.
    change (strip (a3 +:+ t) = strip (a3 +:+ b)).
    apply IH. simpl. lia.
  - rewrite (strip_other "." (String "." (String c3 (a3 +:+ t)))),
            (strip_other "." (String "." (String c3 (a3 +:+ b))))
      by (rewrite has_prefix_dots_cons, has_prefix_dots2_cons, has_prefix_dot_cons, D3;
          reflexivity).
    f_equal. apply (IH (String "." (String c3 a3))). simpl. lia.
Qed.

(** Collapsing separators brings no token into the text. *)
Lemma collapse_head_dot (s : string) :
  strings_HasPrefix (collapse s) "." = true ->
  exists s', s = "." +:+ s' /\ collapse s = "." +:+ collapse s'.
Proof.
  intros P. destruct s as [|c s']; [discriminate P|].
  destruct (is_dash c) eqn:D.
  - exfalso. apply is_dash_true in D. subst c.
    destruct (Nat.le_gt_cases 2 (fst (groups false (String "-" s')))) as [G|G].
    + rewrite (dedup_match _ _ G) in P. discriminate P.
    + rewrite (dedup_no_match _ _ _ G) in P. discriminate P.
  - rewrite (dedup_no_dash _ _ _ D) in *. rewrite has_prefix_dot_cons in P.
    apply is_dot_true in P. subst c. now exists s'.
Qed.

Lemma collapse_no_dots3 (s : string) :
  has_dots3 s = false -> has_dots3 (collapse s) = false.
Proof.
  induction s as [s IH] using string_length_ind. intros H.
  destruct (Nat.le_gt_cases 2 (fst (groups false s))) as [G|G].
  - rewrite (dedup_match _ _ G).
    change (has_dots3 (collapse (snd (groups false s))) = false).
    pose proof (groups_progress s ltac:(lia)) as Hp.
    apply IH; [lia|]. destruct (groups_suffix s false) as [m Hm].
    rewrite Hm in H. exact (no_dots3_suffix _ _ H).
  - destruct s as [|c s']; [reflexivity|].
    rewrite (dedup_no_match _ _ _ G). cbn [has_dots3] in *.
    apply orb_false_elim in H as [P H].
    rewrite (IH s') by (simpl; lia || exact H). rewrite orb_false_r.
    rewrite has_prefix_dots_cons in *. destruct (is_dot c); [|reflexivity].
    cbn [andb] in *.
    destruct (strings_HasPrefix (collapse s') "..") eqn:Q; [|reflexivity].
    exfalso.
    assert (Q1 : strings_HasPrefix (collapse s') "." = true).
    { destruct (collapse s') as [|x y]; [discriminate Q|].
      rewrite has_prefix_dots2_cons in Q. rewrite has_prefix_dot_cons.
      now apply andb_prop in Q as [Q _]. }
    destruct (collapse_head_dot _ Q1) as [s2 [-> E2]]. rewrite E2 in Q.
    assert (Q2 : strings_HasPrefix (collapse s2) "." = true) by exact Q.
    destruct (collapse_head_dot _ Q2) as [s3 [-> _]]. discriminate P.
Qed.

(** ** The clean-up as a whole *)

Lemma cleanup_unfold (s : string) : cleanup s = collapse (strip s).
Proof. reflexivity. Qed.

Lemma cleanup_no_dots3 (s : string) : has_dots3 (cleanup s) = false.
Proof. rewrite cleanup_unfold. apply collapse_no_dots3, strip_no_dots3. Qed.

(** C7, as amended.  The clean-up is idempotent on every text in which,
    once the end-of-document tokens are stripped, no run of separators
    that is collapsed stands directly after a hyphen or directly before
    one: cleaning such a text a second time yields the same text. *)
Theorem cleanup_idempotent_on_isolated_runs (s : string) :
  runs_isolated (strings_ReplaceAll s "..." "") = true ->
  cleanup (cleanup s) = cleanup s.
Proof.
  intros I.
  rewrite (cleanup_unfold (cleanup s)).
  rewrite (strip_fixed _ (cleanup_no_dots3 s)).
  rewrite cleanup_unfold.
  exact (collapse_idempotent _ false I).
Qed.

Lemma cleanup_idempotent_on_isolated_runs_witness :
  runs_isolated (strings_ReplaceAll two_pipelines "..." "") = true /\
  cleanup (cleanup two_pipelines) = cleanup two_pipelines.
Proof.
  split; [reflexivity|].
  apply (cleanup_idempotent_on_isolated_runs two_pipelines). reflexivity.
Defined.

(** C7 as stated fails: on a run of four hyphens, a line feed and a run
    of five hyphens the first clean-up leaves six hyphens, which the second
    one collapses to three. *)
Lemma cleanup_twice_differs :
  cleanup (cleanup ("----" +:+ LF +:+ "-----")) <> cleanup ("----" +:+ LF +:+ "-----").
Proof. vm_compute. discriminate. Qed.

Lemma dots3_occurs (s : string) : has_dots3 s = true -> occurs "..." s.
Proof.
  induction s as [|c s IH]; cbn [has_dots3]; intros H.
  - discriminate H.
  - apply orb_prop in H as [H|H].
    + destruct (dots_inv _ H) as [r E]. now exists "", r.
    + destruct (IH H) as (a & b & ->). now exists (String c a), b.
Qed.

Lemma strip_without_token (s : string) : ~ occurs "..." s -> strip s = s.
Proof.
  intros H. apply strip_fixed. destruct (has_dots3 s) eqn:E; [|reflexivity].
  exfalso. now apply H, dots3_occurs.
Qed.

(** C10.  The clean-up strips the tokens before it collapses separators.
    The stripping takes out tokens and nothing else: a text without three
    dots in a row is returned as it is, and a token is stripped wherever it
    stands, since the text [a ++ "..." ++ b] is stripped (and cleaned) to
    what [a ++ b] is stripped (and cleaned) to, whatever surrounds the
    token.  After the stripping, and after the whole clean-up, the text
    holds no three dots in a row. *)
Theorem cleanup_strips_every_token (s a b : string) :
  cleanup s = dedupRegex_ReplaceAll (strings_ReplaceAll s "..." "") "---"
  /\ ~ occurs "..." (strings_ReplaceAll s "..." "")
  /\ ~ occurs "..." (cleanup s)
  /\ strings_ReplaceAll (a +:+ "..." +:+ b) "..." "" = strings_ReplaceAll (a +:+ b) "..." ""
  /\ cleanup (a +:+ "..." +:+ b) = cleanup (a +:+ b)
  /\ (~ occurs "..." s -> strings_ReplaceAll s "..." "" = s)
  /\ (~ occurs "..." s -> cleanup s = dedupRegex_ReplaceAll s "---").
Proof.
  split; [reflexivity|].
  split; [apply no_dots3_no_occurrence, strip_no_dots3|].
  split; [apply no_dots3_no_occurrence, cleanup_no_dots3|].
  split; [apply strip_remove|].
  split; [rewrite !cleanup_unfold; now rewrite strip_remove|].
  split; [exact (strip_without_token s)|].
  intros H. rewrite cleanup_unfold. now rewrite (strip_without_token s H).
Qed.

Example strip_keeps_the_rest :
  strings_ReplaceAll ("a.b.." +:+ LF +:+ "...." +:+ LF +:+ "x...y") "..." ""
  = "a.b.." +:+ LF +:+ "." +:+ LF +:+ "xy".
Proof. reflexivity. Qed.

Example cleanup_inside_value :
  cleanup ("name: wait...done" +:+ LF) = "name: waitdone" +:+ LF.
Proof. reflexivity. Qed.

(** ** [droneConfigAppend] *)

Lemma trim_left_blank (cutset a : string) :
  all_bytes (in_cutset cutset) a = true -> strings_TrimLeft a cutset = "".
Proof.
  induction a as [|c a IH]; [reflexivity|].
  cbn [all_bytes strings_TrimLeft]. intros H. apply andb_prop in H as [H1 H2].
  rewrite H1. auto.
Qed.

Lemma trim_blank (cutset a : string) :
  all_bytes (in_cutset cutset) a = true -> strings_Trim a cutset = "".
Proof. intros H. unfold strings_Trim. now rewrite (trim_left_blank _ _ H). Qed.

(** C9, as amended.  For every accumulator and every fragment that
    consists only of spaces and line feeds (or is empty), appending the
    fragment returns the accumulator unchanged. *)
Theorem append_blank_fragment (acc a : string) :
  all_bytes (in_cutset (" " +:+ LF)) a = true ->
  droneConfigAppend acc [a] = acc.
Proof.
  intros H. unfold droneConfigAppend. cbn [fold_left]. unfold append_one.
  now rewrite (trim_blank _ _ H).
Qed.

Lemma append_blank_fragment_witness :
  all_bytes (in_cutset (" " +:+ LF)) (" " +:+ LF +:+ " ") = true /\
  droneConfigAppend (pipeline "a") [" " +:+ LF +:+ " "] = pipeline "a".
Proof.
  split; [reflexivity|].
  apply (append_blank_fragment (pipeline "a") (" " +:+ LF +:+ " ")). reflexivity.
Defined.

(** C9 as stated fails: a tab is white space, but it is not in the cut
    set of [droneConfigAppend], so a fragment that is one tab is
    appended as a document. *)
Lemma append_tab_fragment :
  all_bytes is_space TAB = true /\ droneConfigAppend "" [TAB] <> "".
Proof. split; [reflexivity | vm_compute; discriminate]. Qed.

(** ** Package [path] *)

Lemma split_nonempty (s : string) : strings_Split s "/" <> [].
Proof.
  destruct s as [|c s]; [discriminate|].
  cbn [strings_Split]. destruct (Ascii.eqb c "/"); [discriminate|].
  destruct (strings_Split s "/"); discriminate.
Qed.

Lemma split_app_sep (a b : string) :
  strings_Split (a +:+ "/" +:+ b) "/" = strings_Split a "/" ++ strings_Split b "/".
Proof.
  induction a as [|c a IH]; [reflexivity|].
  change (String c a +:+ "/" +:+ b) with (String c (a +:+ "/" +:+ b)).
  cbn [strings_Split]. rewrite IH. destruct (Ascii.eqb c "/"); [reflexivity|].
  pose proof (split_nonempty a) as N.
  destruct (strings_Split a "/") as [|x xs]; [congruence | reflexivity].
Qed.

Lemma split_no_slash (s : string) :
  Forall (fun c => no_slash c = true) (strings_Split s "/").
Proof.
  induction s as [|c s IH]; [repeat constructor|].
  cbn [strings_Split]. destruct (Ascii.eqb c "/") eqn:E.
  - constructor; [reflexivity | exact IH].
  - destruct (strings_Split s "/") as [|x xs].
    + repeat constructor. unfold no_slash. cbn. now rewrite E.
    + inversion IH as [|? ? Hx Hxs]; subst. constructor; [|exact Hxs].
      unfold no_slash in *. cbn [all_bytes]. now rewrite E, Hx.
Qed.

Lemma split_plain (c : string) : no_slash c = true -> strings_Split c "/" = [c].
Proof.
  induction c as [|x c IH]; [reflexivity|].
  unfold no_slash in *. cbn [all_bytes strings_Split]. intros H.
  apply andb_prop in H as [H1 H2]. apply negb_true_iff in H1. rewrite H1.
  now rewrite (IH H2).
Qed.

Lemma split_join (l : list string) :
  l <> [] -> Forall (fun c => no_slash c = true) l ->
  strings_Split (strings_Join l "/") "/" = l.
Proof.
  induction l as [|x l IH]; [congruence|]. intros _ F.
  inversion F as [|? ? Hx Hl]; subst.
  destruct l as [|y l].
  - cbn [strings_Join]. now apply split_plain.
  - change (strings_Join (x :: y :: l) "/") with (x +:+ "/" +:+ strings_Join (y :: l) "/").
    rewrite split_app_sep, (split_plain _ Hx), IH by (congruence || exact Hl).
    reflexivity.
Qed.

Lemma split_length (s : string) : length (strings_Split s "/") <= S (String.length s).
Proof.
  induction s as [|c s IH]; [simpl; lia|].
  cbn [strings_Split String.length]. destruct (Ascii.eqb c "/"); [simpl; lia|].
  destruct (strings_Split s "/"); simpl in *; lia.
Qed.

Lemma plain_elem_inv (c : string) :
  plain_elem c = true ->
  String.eqb c "" = false /\ String.eqb c "." = false /\ String.eqb c ".." = false
  /\ no_slash c = true.
Proof.
  unfold plain_elem. intros H.
  apply andb_prop in H as [H H4]. apply andb_prop in H as [H H3].
  apply andb_prop in H as [H1 H2].
  apply negb_true_iff in H1, H2, H3. auto.
Qed.

(** The elements that a rooted path keeps are plain, and no more than the
    path has. *)
Lemma clean_step_plain (stk : list string) (c : string) :
  no_slash c = true -> Forall (fun c => plain_elem c = true) stk ->
  Forall (fun c => plain_elem c = true) (clean_step true stk c).
Proof.
  intros Hc F. unfold clean_step.
  destruct (String.eqb c "") eqn:E1; [exact F|].
  destruct (String.eqb c ".") eqn:E2; [exact F|]. cbn [orb].
  destruct (String.eqb c "..") eqn:E3.
  - destruct stk as [|top rest]; [constructor|]. cbn [negb andb].
    now inversion F.
  - constructor; [|exact F]. unfold plain_elem. now rewrite E1, E2, E3, Hc.
Qed.

Lemma clean_fold_plain (l stk : list string) :
  Forall (fun c => no_slash c = true) l ->
  Forall (fun c => plain_elem c = true) stk ->
  Forall (fun c => plain_elem c = true) (fold_left (clean_step true) l stk).
Proof.
  revert stk. induction l as [|c l IH]; intros stk Hl F; [exact F|].
  inversion Hl; subst. cbn [fold_left]. apply IH; [assumption|].
  now apply clean_step_plain.
Qed.

Lemma clean_stack_plain (p : string) :
  Forall (fun c => plain_elem c = true) (clean_stack true p).
Proof. apply clean_fold_plain; [apply split_no_slash | constructor]. Qed.

Lemma clean_step_length (stk : list string) (c : string) :
  length (clean_step true stk c) <= S (length stk).
Proof.
  unfold clean_step.
  destruct (String.eqb c "" || String.eqb c "."); [lia|].
  destruct (String.eqb c ".."); [|simpl; lia].
  destruct stk; simpl; lia.
Qed.

Lemma clean_fold_length (l stk : list string) :
  length (fold_left (clean_step true) l stk) <= length l + length stk.
Proof.
  revert stk. induction l as [|c l IH]; intros stk; [simpl; lia|].
  cbn [fold_left]. pose proof (IH (clean_step true stk c)).
  pose proof (clean_step_length stk c). simpl. lia.
Qed.

Lemma clean_stack_length (p : string) :
  length (clean_stack true p) <= S (String.length p).
Proof.
  unfold clean_stack. pose proof (clean_fold_length (strings_Split p "/") []).
  pose proof (split_length p). simpl in *. lia.
Qed.

Lemma clean_fold_plain_elems (l stk : list string) :
  Forall (fun c => plain_elem c = true) l ->
  fold_left (clean_step true) l stk = rev l ++ stk.
Proof.
  revert stk. induction l as [|c l IH]; intros stk F; [reflexivity|].
  inversion F as [|? ? Hc Hl]; subst. cbn [fold_left].
  destruct (plain_elem_inv _ Hc) as (E1 & E2 & E3 & _).
  unfold clean_step at 2. rewrite E1, E2, E3. cbn [orb].
  rewrite (IH _ Hl). cbn [rev]. now rewrite <- app_assoc.
Qed.

Lemma plain_no_slash (l : list string) :
  Forall (fun c => plain_elem c = true) l -> Forall (fun c => no_slash c = true) l.
Proof.
  induction 1 as [|c l Hc _ IH]; constructor; [|exact IH].
  now destruct (plain_elem_inv _ Hc) as (_ & _ & _ & ?).
Qed.

(** A clean rooted path is made of the elements it was built from. *)
Lemma clean_stack_rooted_path (stk : list string) :
  Forall (fun c => plain_elem c = true) stk ->
  clean_stack true (rooted_path stk) = stk.
Proof.
  intros F. unfold clean_stack, rooted_path.
  change ("/" +:+ strings_Join (rev stk) "/")
    with ("" +:+ "/" +:+ strings_Join (rev stk) "/").
  rewrite split_app_sep. cbn [strings_Split app fold_left]. 
  change (clean_step true [] "") with (@nil string).
  destruct stk as [|c stk]; [reflexivity|].
  assert (Fr : Forall (fun c => plain_elem c = true) (rev (c :: stk))).
  { apply Forall_rev. exact F. }
  rewrite split_join.
  - rewrite (clean_fold_plain_elems _ _ Fr). rewrite rev_involutive. apply app_nil_r.
  - intros E. apply (f_equal (@length string)) in E. rewrite length_rev in E. discriminate E.
  - now apply plain_no_slash.
Qed.

Lemma join_nonempty (l : list string) :
  l <> [] -> Forall (fun c => plain_elem c = true) l -> strings_Join l "/" <> "".
Proof.
  destruct l as [|x l]; [congruence|]. intros _ F. inversion F as [|? ? Hx _]; subst.
  destruct (plain_elem_inv _ Hx) as (E1 & _). apply String.eqb_neq in E1.
  destruct x as [|a x]; [congruence|]. destruct l; discriminate.
Qed.

Lemma rooted_path_is_root (stk : list string) :
  Forall (fun c => plain_elem c = true) stk ->
  String.eqb (rooted_path stk) "/" = match stk with [] => true | _ => false end.
Proof.
  intros F. destruct stk as [|c stk]; [reflexivity|].
  apply String.eqb_neq. unfold rooted_path. intros E.
  assert (J : strings_Join (rev (c :: stk)) "/" = "") by (injection E; auto).
  revert J. apply join_nonempty.
  - intros E'. apply (f_equal (@length string)) in E'. rewrite length_rev in E'. discriminate E'.
  - apply Forall_rev. exact F.
Qed.

(** The parent of a rooted path. *)
Lemma join_parent (dir : string) :
  strings_HasPrefix dir "/" = true ->
  path_Join [dir; ".."] = rooted_path (tl (clean_stack true dir)).
Proof.
  intros R. destruct dir as [|c dir]; [discriminate R|].
  cbn [path_Join String.eqb strings_Join]. unfold path_Clean.
  assert (R' : strings_HasPrefix (String c dir +:+ "/" +:+ "..") "/" = true) by exact R.
  rewrite R'.
  change (String c dir +:+ "/" +:+ ".." =? "") with false.
  unfold rooted_path. do 2 f_equal.
  unfold clean_stack.
  rewrite split_app_sep, fold_left_app. cbn [strings_Split fold_left].
  destruct (fold_left (clean_step true) (strings_Split (String c dir) "/") []);
    reflexivity.
Qed.

Lemma join_parent_rooted (dir : string) :
  strings_HasPrefix dir "/" = true ->
  strings_HasPrefix (path_Join [dir; ".."]) "/" = true.
Proof. intros R. now rewrite (join_parent _ R). Qed.

(** ** The walk over the ancestors of a changed file *)

Section Walk.

Variable yaml_Unmarshal : string -> droneConfig + error.
Variable p : plugin.
Variable req : request.

Abbreviation slug := (Slug (Repo (Request req))).
Abbreviation rev_after := (After (Build (Request req))).

Lemma fetched_app (l1 l2 : list Call) : fetched (l1 ++ l2) = fetched l1 ++ fetched l2.
Proof.
  induction l1 as [|c l1 IH]; [reflexivity|].
  destruct c; cbn [app fetched]; now rewrite IH.
Qed.

(** Fetching a candidate asks the content service once, for that path. *)
Lemma getScmDroneConfig_log (file : string) (log : list Call) :
  snd (getScmDroneConfig yaml_Unmarshal p req file log)
  = log ++ [CallContentsFind slug file rev_after].
Proof.
  unfold getScmDroneConfig, getScmFile, contents_find, emit, ret, mbind, M_bind, mret, M_ret.
  destruct (Contents_Find (Client req) slug file rev_after) as [[d|] [e|]]; cbn; try reflexivity.
  destruct (yaml_Unmarshal (ContentData d)) as [dc|e]; cbn; [|reflexivity].
  destruct (String.eqb (Name dc) "" || String.eqb (Kind dc) ""); reflexivity.
Qed.

(** One turn of the loop either leaves the function or the loop, or goes
    on with the parent directory. *)
Lemma walk_turn (P : outcome flow * list Call -> Prop) (f : nat) (dir : string)
    (cache : gmap string bool) (configData : string) (log : list Call) :
  let file := path_Join [path_Join [dir; ".."]; Config (Repo (Request req))] in
  let log' := log ++ [CallContentsFind slug file rev_after] in
  (forall cd, cache !! file <> None ->
     P (walk yaml_Unmarshal p req f (String.eqb dir "/") (path_Join [dir; ".."]) cache cd log)) ->
  (forall cd, cache !! file = None ->
     P (walk yaml_Unmarshal p req f (String.eqb dir "/") (path_Join [dir; ".."])
          (<[file := true]> cache) cd log')) ->
  (forall e, cache !! file = None -> P (Returns (Return "" (Some e)), log')) ->
  (forall cd, cache !! file = None -> P (Returns (Continue (<[file := true]> cache) cd), log')) ->
  P (walk yaml_Unmarshal p req (S f) false dir cache configData log).
Proof.
  intros file log' Hhit Hgo Hret Hbrk. cbn [walk]. fold file.
  destruct (cache !! file) eqn:L.
  - apply Hhit. congruence.
  - unfold mbind, M_bind.
    pose proof (getScmDroneConfig_log file log) as E. fold log' in E.
    destruct (getScmDroneConfig yaml_Unmarshal p req file log) as [[[fc crit] err] lg].
    cbn [snd] in E. subst lg.
    destruct err as [e|].
    + destruct crit; [apply Hret | apply Hgo]; reflexivity.
    + destruct (negb (concat p)); [apply Hbrk | apply Hgo]; reflexivity.
Qed.

Lemma rooted_path_rooted (stk : list string) :
  strings_HasPrefix (rooted_path stk) "/" = true.
Proof. reflexivity. Qed.

(** From a clean path, one unit of fuel for each element and one for the
    root are enough. *)
Lemma walk_clean_returns (fuel : nat) :
  forall stk done cache configData log,
  Forall (fun c => plain_elem c = true) stk ->
  (done = false -> length stk + 1 <= fuel) ->
  exists fl, fst (walk yaml_Unmarshal p req fuel done (rooted_path stk) cache configData log)
             = Returns fl.
Proof.
  induction fuel as [|f IH]; intros stk done cache cd log F Hf.
  - destruct done; [eexists; reflexivity | specialize (Hf eq_refl); lia].
  - destruct done; [eexists; reflexivity|]. specialize (Hf eq_refl).
    assert (Hrec : forall cache' cd' log',
      exists fl, fst (walk yaml_Unmarshal p req f (String.eqb (rooted_path stk) "/")
                        (path_Join [rooted_path stk; ".."]) cache' cd' log') = Returns fl).
    { intros. rewrite (join_parent _ (rooted_path_rooted stk)).
      rewrite (clean_stack_rooted_path _ F), (rooted_path_is_root _ F).
      apply IH.
      - destruct stk; [constructor | now inversion F].
      - destruct stk; [discriminate | simpl in *; intros _; lia]. }
    apply walk_turn; intros; try apply Hrec; eexists; reflexivity.
Qed.

(** The fuel that [scan_changed] gives is enough for every rooted path. *)
Lemma walk_returns (file : string) (cache : gmap string bool) (configData : string)
    (log : list Call) :
  strings_HasPrefix file "/" = true ->
  exists fl, fst (walk yaml_Unmarshal p req (String.length file + 2) false file cache configData log)
             = Returns fl.
Proof.
  intros R. replace (String.length file + 2) with (S (String.length file + 1)) by lia.
  assert (Hrec : forall cache' cd' log',
    exists fl, fst (walk yaml_Unmarshal p req (String.length file + 1) (String.eqb file "/")
                      (path_Join [file; ".."]) cache' cd' log') = Returns fl).
  { intros. rewrite (join_parent _ R). apply walk_clean_returns.
    - pose proof (clean_stack_plain file) as F.
      destruct (clean_stack true file); [constructor | now inversion F].
    - intros _. pose proof (clean_stack_length file).
      destruct (clean_stack true file); simpl in *; lia. }
  apply walk_turn; intros; try apply Hrec; eexists; reflexivity.
Qed.

Lemma rooted_changed_file (file : string) :
  strings_HasPrefix
    (if negb (strings_HasPrefix file "/") then "/" +:+ file else file) "/" = true.
Proof. destruct (strings_HasPrefix file "/") eqn:E; [exact E | reflexivity]. Qed.

Lemma scan_changed_returns (changedFiles : list string) :
  forall cache configData log,
  exists fl, fst (scan_changed yaml_Unmarshal p req changedFiles cache configData log)
             = Returns fl.
Proof.
  induction changedFiles as [|file rest IH]; intros cache cd log; [eexists; reflexivity|].
  cbn [scan_changed]. unfold mbind, M_bind.
  set (file' := if negb (strings_HasPrefix file "/") then "/" +:+ file else file).
  destruct (walk_returns file' cache cd log (rooted_changed_file file)) as [fl E].
  destruct (walk yaml_Unmarshal p req (String.length file' + 2) false file' cache cd log)
    as [r lg].
  cbn [fst] in E. subst r. destruct fl as [cache' cd'|cd' err].
  - apply IH.
  - eexists; reflexivity.
Qed.

(** [getScmConfigData] returns on every list of changed files. *)
Lemma getScmConfigData_returns (changedFiles : list string) (log : list Call) :
  exists configData err,
    fst (getScmConfigData yaml_Unmarshal p req changedFiles log) = Returns (configData, err).
Proof.
  unfold getScmConfigData, mbind, M_bind.
  destruct (scan_changed_returns changedFiles ∅ "" log) as [fl E].
  destruct (scan_changed yaml_Unmarshal p req changedFiles ∅ "" log) as [r lg].
  cbn [fst] in E. subst r. destruct fl; eexists; eexists; reflexivity.
Qed.

(** *** No candidate is fetched twice *)

Lemma seen_covers_insert (cache : gmap string bool) (log : list Call) (file s r : string) :
  seen_covers cache log -> cache !! file = None ->
  seen_covers (<[file := true]> cache) (log ++ [CallContentsFind s file r]).
Proof.
  intros [N C] L. unfold seen_covers. rewrite fetched_app. cbn [fetched]. split.
  - apply NoDup_app. split; [exact N|]. split; [|apply NoDup_singleton].
    intros x Hx Hf. apply list_elem_of_singleton in Hf. subst x.
    apply list_elem_of_In in Hx. exact (C _ Hx L).
  - intros path Hin. apply in_app_or in Hin as [Hin|[<-|[]]].
    + destruct (decide (file = path)) as [<-|Hne].
      * rewrite lookup_insert_eq. discriminate.
      * rewrite lookup_insert_ne by exact Hne. now apply C.
    + rewrite lookup_insert_eq. discriminate.
Qed.

Lemma walk_seen (fuel : nat) :
  forall done dir cache configData log,
  seen_covers cache log ->
  let r := walk yaml_Unmarshal p req fuel done dir cache configData log in
  NoDup (fetched (snd r)) /\
  forall cache' cd', fst r = Returns (Continue cache' cd') -> seen_covers cache' (snd r).
Proof.
  induction fuel as [|f IH]; intros done dir cache cd log S.
  - destruct done; cbn; (split; [apply S|]); intros ? ? E; [|discriminate E].
    injection E as <- _. exact S.
  - destruct done.
    { cbn. split; [apply S|]. intros ? ? E. injection E as <- _. exact S. }
    cbv zeta.
    apply (walk_turn (fun r => NoDup (fetched (snd r)) /\
             forall cache' cd', fst r = Returns (Continue cache' cd') ->
                                seen_covers cache' (snd r))).
    + intros cd' _. apply IH. exact S.
    + intros cd' L. apply IH. now apply seen_covers_insert.
    + intros e L. pose proof (seen_covers_insert _ _ _ slug rev_after S L) as [N _].
      split; [exact N|]. intros ? ? E. discriminate E.
    + intros cd' L. pose proof (seen_covers_insert _ _ _ slug rev_after S L) as S'.
      split; [apply S'|]. intros ? ? E. injection E as <- _. exact S'.
Qed.

Lemma scan_changed_seen (changedFiles : list string) :
  forall cache configData log,
  seen_covers cache log ->
  NoDup (fetched (snd (scan_changed yaml_Unmarshal p req changedFiles cache configData log))).
Proof.
  induction changedFiles as [|file rest IH]; intros cache cd log S; [apply S|].
  cbn [scan_changed]. unfold mbind, M_bind.
  set (file' := if negb (strings_HasPrefix file "/") then "/" +:+ file else file).
  pose proof (walk_seen (String.length file' + 2) false file' cache cd log S) as [N C].
  destruct (walk yaml_Unmarshal p req (String.length file' + 2) false file' cache cd log)
    as [r lg].
  cbn [fst snd] in *. destruct r as [[cache' cd'|cd' err]| |]; try exact N.
  apply IH. exact (C cache' cd' eq_refl).
Qed.

Lemma getScmConfigData_seen (changedFiles : list string) (log : list Call) :
  fetched log = [] ->
  NoDup (fetched (snd (getScmConfigData yaml_Unmarshal p req changedFiles log))).
Proof.
  intros E. unfold getScmConfigData, mbind, M_bind.
  assert (S : seen_covers ∅ log).
  { split; rewrite E; [constructor | intros ? []]. }
  pose proof (scan_changed_seen changedFiles ∅ "" log S) as N.
  destruct (scan_changed yaml_Unmarshal p req changedFiles ∅ "" log) as [r lg].
  destruct r as [[? ?|? ?]| |]; exact N.
Qed.

Lemma getScmChanges_fetched (log : list Call) :
  fetched (snd (getScmChanges p req log)) = fetched log.
Proof.
  unfold getScmChanges, pr_list_changes, git_list_changes, emit, ret, mbind, M_bind, mret, M_ret.
  destruct (String.eqb (Trigger (Build (Request req))) "@cron"); [reflexivity|].
  destruct (strings_HasPrefix (Ref (Build (Request req))) "refs/pull/").
  - destruct (strconv_Atoi _) as [n|e]; [|reflexivity].
    destruct (PullRequests_ListChanges _ _ _) as [files [e|]]; cbn;
      rewrite fetched_app; cbn; apply app_nil_r.
  - destruct (Git_ListChanges _ _ _) as [files [e|]]; cbn;
      rewrite fetched_app; cbn; apply app_nil_r.
Qed.

Lemma getAllConfigData_fetched (dir : string) (depth : Z) (log : list Call) :
  fetched (snd (getAllConfigData p req dir depth log)) = fetched log ++ [dir].
Proof.
  unfold getAllConfigData, contents_find, emit, ret, mbind, M_bind, mret, M_ret.
  destruct (Contents_Find _ _ _ _) as [ls [e|]]; cbn; [now rewrite fetched_app|].
  destruct (maxDepth p <? depth)%Z; cbn; [now rewrite fetched_app|].
  destruct ls; cbn; now rewrite fetched_app.
Qed.

End Walk.

(** C6.  For every list of changed files, [getScmConfigData] returns, and
    the candidate paths it fetched hold no path twice; the same is true
    of all the paths that one call of [Find] fetches. *)
Theorem no_candidate_fetched_twice
    (yaml_Unmarshal : string -> droneConfig + error)
    (github_NewDefault : scm_Client) (github_New : string -> scm_Client + error)
    (p : plugin) (req : request) (changedFiles : list string)
    (droneRequest : config_Request) :
  (exists configData err,
     fst (run (getScmConfigData yaml_Unmarshal p req changedFiles))
     = Returns (configData, err))
  /\ NoDup (fetched (snd (run (getScmConfigData yaml_Unmarshal p req changedFiles))))
  /\ NoDup (fetched (snd (run (Find yaml_Unmarshal github_NewDefault github_New
                                 p droneRequest)))).
Proof.
  split; [apply getScmConfigData_returns|].
  split; [now apply getScmConfigData_seen|].
  unfold run, Find.
  destruct (if String.eqb (server p) "" then inl github_NewDefault else github_New (server p))
    as [client|e]; [|constructor].
  unfold mbind, M_bind.
  set (rq := {| Request := droneRequest; Client := client |}).
  pose proof (getScmChanges_fetched p rq []) as E0.
  destruct (getScmChanges p rq []) as [[changed err] lg]. cbn [snd fetched] in E0.
  destruct err as [e|]; [cbn; rewrite E0; constructor|].
  assert (A : NoDup (fetched (snd (getAllConfigData p rq "/" 0 lg)))).
  { rewrite getAllConfigData_fetched, E0. apply NoDup_singleton. }
  assert (Fin : forall (r : outcome (string * option error)) (lg' : list Call),
    NoDup (fetched lg') ->
    NoDup (fetched (snd
      (match r with
       | Returns (configData, Some e) => ret (Returns (inr e))
       | Returns (configData, None) =>
           if String.eqb configData ""
           then ret (Returns (inr "did not find a .drone.yml"))
           else ret (Returns (inl {| Data := cleanup configData |}))
       | Panics => ret Panics
       | OutOfFuel => ret OutOfFuel
       end lg')))).
  { intros r lg' N. destruct r as [[cd [e|]]| |]; try exact N.
    destruct (String.eqb cd ""); exact N. }
  destruct changed as [files|].
  - pose proof (getScmConfigData_seen yaml_Unmarshal p rq files lg E0) as N.
    destruct (getScmConfigData yaml_Unmarshal p rq files lg) as [r lg'].
    now apply Fin.
  - destruct (String.eqb (Trigger (Build droneRequest)) "@cron");
      [|destruct (fallback p)].
    1,2: destruct (getAllConfigData p rq "/" 0 lg) as [r lg']; now apply Fin.
    apply (Fin (Returns ("", None)) lg). rewrite E0. constructor.
Qed.

(** ** Appending a document *)

Lemma has_suffix_app (x y : string) :
  y <> "" -> strings_HasSuffix (x +:+ y) LF = strings_HasSuffix y LF.
Proof.
  intros Hy. induction x as [|c x IH]; [reflexivity|].
  change (String c x +:+ y) with (String c (x +:+ y)).
  cbn [strings_HasSuffix]. rewrite IH.
  replace (String c (x +:+ y) =? LF) with false; [reflexivity|].
  symmetry. apply String.eqb_neq. unfold LF. intros E. injection E as _ E.
  destruct x; cbn in E; [congruence | discriminate E].
Qed.

Lemma trim_right_no_lf (s cutset : string) :
  in_cutset cutset "010"%char = true ->
  strings_HasSuffix (strings_TrimRight s cutset) LF = false.
Proof.
  intros Hc. induction s as [|c s IH]; [reflexivity|].
  cbn [strings_TrimRight].
  destruct (in_cutset cutset c && String.eqb (strings_TrimRight s cutset) "") eqn:E;
    [reflexivity|].
  cbn [strings_HasSuffix]. rewrite IH, orb_false_r.
  apply String.eqb_neq. unfold LF. intros E'. injection E' as -> E'.
  rewrite Hc, E' in E. discriminate E.
Qed.

Lemma append_one_document (acc a : string) :
  strings_Trim a (" " +:+ LF) <> "" -> append_one acc a = acc +:+ document a.
Proof.
  intros Ht. unfold append_one, document.
  set (t := strings_Trim a (" " +:+ LF)) in *.
  apply String.eqb_neq in Ht as Hb. rewrite Hb. cbn [negb].
  assert (Hs : strings_HasSuffix t LF = false)
    by (apply trim_right_no_lf; reflexivity).
  destruct (strings_HasPrefix t ("---" +:+ LF)); cbn [negb].
  - rewrite has_suffix_app, Hs by exact Ht. cbn [negb]. apply append_assoc.
  - rewrite has_suffix_app by discriminate.
    change ("---" +:+ LF +:+ t) with (("---" +:+ LF) +:+ t).
    rewrite has_suffix_app, Hs by exact Ht. cbn [negb]. apply append_assoc.
Qed.


(** ** Stepping through the walk *)

Lemma walk_done yaml p req fuel dir cache cd log :
  walk yaml p req fuel true dir cache cd log = (Returns (Continue cache cd), log).
Proof. destruct fuel; reflexivity. Qed.

Lemma walk_cached yaml p req f dir cache cd log dir' file done' b :
  path_Join [dir; ".."] = dir' ->
  path_Join [dir'; Config (Repo (Request req))] = file ->
  String.eqb dir "/" = done' ->
  cache !! file = Some b ->
  walk yaml p req (S f) false dir cache cd log = walk yaml p req f done' dir' cache cd log.
Proof. intros <- <- <- L. cbn [walk]. now rewrite L. Qed.

Lemma walk_fetch yaml p req f dir cache cd log dir' file done' fc crit err lg :
  path_Join [dir; ".."] = dir' ->
  path_Join [dir'; Config (Repo (Request req))] = file ->
  String.eqb dir "/" = done' ->
  cache !! file = None ->
  getScmDroneConfig yaml p req file log = ((fc, crit, err), lg) ->
  walk yaml p req (S f) false dir cache cd log =
  match err with
  | Some e =>
      if crit then (Returns (Return "" (Some e)), lg)
      else walk yaml p req f done' dir' (<[file := true]> cache) cd lg
  | None =>
      if negb (concat p)
      then (Returns (Continue (<[file := true]> cache) (droneConfigAppend cd [fc])), lg)
      else walk yaml p req f done' dir' (<[file := true]> cache) (droneConfigAppend cd [fc]) lg
  end.
Proof.
  intros <- <- <- L G. cbn [walk]. rewrite L. unfold mbind, M_bind. rewrite G.
  destruct err; [destruct crit | destruct (negb (concat p))]; reflexivity.
Qed.






(** ** The resolver of the change set *)

(** C4 (what the code does).  For every event that is neither scheduled
    nor for a pull request, the one request to the SCM is for the changes
    of the after-revision: the before-revision, and the reference that is
    made up when it is missing or zero, are passed to no call. *)
Theorem changes_requested_for_after_revision (p : plugin) (req : request) (log : list Call) :
  String.eqb (Trigger (Build (Request req))) "@cron" = false ->
  strings_HasPrefix (Ref (Build (Request req))) "refs/pull/" = false ->
  snd (getScmChanges p req log)
  = log ++ [CallGitChanges (Slug (Repo (Request req))) (After (Build (Request req)))].
Proof.
  intros C R. unfold getScmChanges. rewrite C, R.
  unfold git_list_changes, emit, ret, mbind, M_bind, mret, M_ret.
  destruct (Git_ListChanges _ _ _) as [changes [e|]]; reflexivity.
Qed.

Lemma changes_requested_for_after_revision_witness :
  snd (run (getScmChanges (scenario_plugin true false)
              {| Request := push_event ".drone.yml" "1f3a" "9c4e";
                 Client := nested_repo (pipeline "ab") (pipeline "a") |}))
  = [CallGitChanges "octo/mono" "9c4e"].
Proof.
  apply (changes_requested_for_after_revision (scenario_plugin true false)
           {| Request := push_event ".drone.yml" "1f3a" "9c4e";
              Client := nested_repo (pipeline "ab") (pipeline "a") |} []);
    reflexivity.
Defined.

Lemma changes_result_empty : changes_result [] = (None, None).
Proof. reflexivity. Qed.

(** What [Find] does after the configuration data are there adds no
    request. *)
Lemma find_finish_log (r : outcome (string * option error)) (lg : list Call) :
  snd (match r with
       | Returns (configData, Some e) => ret (Returns (inr e))
       | Returns (configData, None) =>
           if String.eqb configData ""
           then ret (Returns (inr "did not find a .drone.yml"))
           else ret (Returns (inl {| Data := cleanup configData |}))
       | Panics => ret Panics
       | OutOfFuel => ret OutOfFuel
       end lg) = lg.
Proof.
  destruct r as [[cd [e|]]| |]; try reflexivity. destruct (String.eqb cd ""); reflexivity.
Qed.

(** The caller of [getScmChanges]: on the nil result, [Find] reads the
    trigger of the event again. *)
Lemma find_fetches_on_nil yaml newDefault new p (req : request) :
  (if String.eqb (server p) "" then inl newDefault else new (server p)) = inl (Client req) ->
  fst (getScmChanges p req []) = (None, None) ->
  fetched (snd (run (Find yaml newDefault new p (Request req))))
  = if String.eqb (Trigger (Build (Request req))) "@cron" then ["/"]
    else if fallback p then ["/"] else [].
Proof.
  intros C G. unfold run, Find. rewrite C. unfold mbind, M_bind.
  replace {| Request := Request req; Client := Client req |} with req by now destruct req.
  pose proof (getScmChanges_fetched p req []) as F.
  destruct (getScmChanges p req []) as [[ch er] lg]. cbn [fst snd fetched] in *.
  injection G as -> ->.
  assert (A : fetched (snd (let '(a, log') := getAllConfigData p req "/" 0 lg in
      match a with
      | Returns (configData, Some e) => ret (Returns (inr e))
      | Returns (configData, None) =>
          if String.eqb configData ""
          then ret (Returns (inr "did not find a .drone.yml"))
          else ret (Returns (inl {| Data := cleanup configData |}))
      | Panics => ret Panics
      | OutOfFuel => ret OutOfFuel
      end log')) = ["/"]).
  { pose proof (getAllConfigData_fetched p req "/" 0%Z lg) as E. rewrite F in E.
    destruct (getAllConfigData p req "/" 0 lg) as [r lg']. cbn [snd] in E.
    now rewrite find_finish_log. }
  destruct (String.eqb (Trigger (Build (Request req))) "@cron"); [exact A|].
  destruct (fallback p); [exact A|]. cbn. exact F.
Qed.

(** C5, as amended.  When the resolver obtains an empty list of changed
    files it returns the nil list and no error, and that is also what it
    returns for a scheduled trigger: the two cases cannot be told apart by
    the value returned.  The caller, [Find], tells them apart by reading
    the trigger kind of the event again: for a scheduled trigger it scans
    from the root whatever the fallback flag says, for an empty list of
    changes it does so only when the fallback is enabled. *)
Theorem no_changes_same_as_scheduled (yaml : string -> droneConfig + error)
    (newDefault : scm_Client) (new : string -> scm_Client + error)
    (p : plugin) (req scheduled : request) (log log' : list Call) :
  String.eqb (Trigger (Build (Request req))) "@cron" = false ->
  listed_changes req = Some [] ->
  String.eqb (Trigger (Build (Request scheduled))) "@cron" = true ->
  fst (getScmChanges p req log) = (None, None)
  /\ fst (getScmChanges p scheduled log') = (None, None)
  /\ ((if String.eqb (server p) "" then inl newDefault else new (server p))
        = inl (Client scheduled) ->
      fetched (snd (run (Find yaml newDefault new p (Request scheduled)))) = ["/"])
  /\ ((if String.eqb (server p) "" then inl newDefault else new (server p))
        = inl (Client req) ->
      fetched (snd (run (Find yaml newDefault new p (Request req))))
      = if fallback p then ["/"] else []).
Proof.
  intros C L S.
  assert (G : forall lg, fst (getScmChanges p req lg) = (None, None)).
  { intros lg. unfold getScmChanges, listed_changes in *. rewrite C.
    unfold pr_list_changes, git_list_changes, emit, ret, mbind, M_bind, mret, M_ret.
    destruct (strings_HasPrefix (Ref (Build (Request req))) "refs/pull/").
    + destruct (strconv_Atoi _) as [n|e]; [|discriminate L].
      destruct (PullRequests_ListChanges _ _ _) as [files [e|]]; [discriminate L|].
      injection L as ->. reflexivity.
    + destruct (Git_ListChanges _ _ _) as [changes [e|]]; [discriminate L|].
      injection L as ->. reflexivity. }
  assert (G' : forall lg, fst (getScmChanges p scheduled lg) = (None, None)).
  { intros lg. unfold getScmChanges. rewrite S. reflexivity. }
  split; [apply G|]. split; [apply G'|]. split.
  - intros H. rewrite (find_fetches_on_nil yaml newDefault new p scheduled H (G' [])).
    now rewrite S.
  - intros H. rewrite (find_fetches_on_nil yaml newDefault new p req H (G [])).
    now rewrite C.
Qed.

Lemma no_changes_same_as_scheduled_witness :
  fst (run (getScmChanges (scenario_plugin true false)
              {| Request := push_event ".drone.yml" "1f3a" "9c4e"; Client := quiet_repo |}))
  = (None, None)
  /\ fst (run (getScmChanges (scenario_plugin true false)
                 {| Request := cron_event ".drone.yml" "9c4e"; Client := quiet_repo |}))
  = (None, None)
  /\ fetched (snd (resolve (scenario_plugin true false) quiet_repo
                     (cron_event ".drone.yml" "9c4e"))) = ["/"]
  /\ fetched (snd (resolve (scenario_plugin true false) quiet_repo
                     (push_event ".drone.yml" "1f3a" "9c4e"))) = [].
Proof.
  destruct (no_changes_same_as_scheduled scenario_yaml quiet_repo (fun _ => inl quiet_repo)
              (scenario_plugin true false)
              {| Request := push_event ".drone.yml" "1f3a" "9c4e"; Client := quiet_repo |}
              {| Request := cron_event ".drone.yml" "9c4e"; Client := quiet_repo |} [] []
              eq_refl eq_refl eq_refl) as (H1 & H2 & H3 & H4).
  split; [exact H1|]. split; [exact H2|].
  split; [exact (H3 eq_refl) | exact (H4 eq_refl)].
Defined.

(** C5 as stated fails: for a push without changed files and for a
    scheduled build the resolver returns the same value. *)
Lemma no_changes_sentinel_not_distinct :
  ~ (fst (run (getScmChanges (scenario_plugin true false)
                 {| Request := push_event ".drone.yml" "1f3a" "9c4e"; Client := quiet_repo |}))
     <> fst (run (getScmChanges (scenario_plugin true false)
                 {| Request := cron_event ".drone.yml" "9c4e"; Client := quiet_repo |}))).
Proof. intros H. apply H. reflexivity. Qed.

Lemma has_prefix_inv (pre s : string) :
  strings_HasPrefix s pre = true -> exists r, s = pre +:+ r.
Proof.
  revert s. induction pre as [|c pre IH]; intros s H; [now exists s|].
  destruct s as [|d s]; [discriminate H|]. cbn [strings_HasPrefix] in H.
  apply andb_prop in H as [E H]. apply Ascii.eqb_eq in E. subst d.
  destruct (IH _ H) as [r ->]. now exists r.
Qed.

(** The pull request number is read from the third element of the
    reference, which a reference with the prefix always has. *)
Lemma pull_reference_has_number (ref : string) :
  strings_HasPrefix ref "refs/pull/" = true ->
  2 < length (strings_Split ref "/").
Proof.
  intros H. destruct (has_prefix_inv _ _ H) as [r ->].
  change ("refs/pull/" +:+ r) with ("refs" +:+ "/" +:+ "pull" +:+ "/" +:+ r).
  rewrite !split_app_sep. cbn.
  pose proof (split_nonempty r). destruct (strings_Split r "/"); [congruence|].
  simpl. lia.
Qed.

(** ** Scenarios in which the code departs from its description *)

(** C1 (what the code does).  With concat mode disabled and the
    repository of the scenario with two nested configurations, the walk of
    the first changed file stops at the configuration in /a/b, but the
    second changed file is walked all the same, and the configuration in
    /a is added: the result holds two documents. *)
Theorem single_match_keeps_two_configs :
  resolve (scenario_plugin false false) (nested_repo (pipeline "ab") (pipeline "a"))
    (push_event ".pipeline.yml" "1f3a" "9c4e")
  = (Returns (inl {| Data := "---" +:+ LF +:+ pipeline "ab" +:+ "---" +:+ LF +:+ pipeline "a" |}),
     [CallGitChanges "octo/mono" "9c4e";
      CallContentsFind "octo/mono" "/a/b/.pipeline.yml" "9c4e";
      CallContentsFind "octo/mono" "/a/.pipeline.yml" "9c4e"]).
Proof. vm_compute. reflexivity. Qed.

(** C2 (what the code does).  A configuration without a name is reported
    with the critical flag but without an error, so the walk does not
    stop: the empty content is appended, the walk goes on to the root, and
    [Find] returns the configuration found there. *)
Theorem nameless_config_not_reported :
  fst (run (getScmDroneConfig scenario_yaml (scenario_plugin true false)
              {| Request := push_event ".drone.yml" "1f3a" "9c4e"; Client := nameless_repo |}
              "/a/.drone.yml"))
  = ("", true, None)
  /\ resolve (scenario_plugin true false) nameless_repo (push_event ".drone.yml" "1f3a" "9c4e")
  = (Returns (inl {| Data := "---" +:+ LF +:+ pipeline "root" |}),
     [CallGitChanges "octo/mono" "9c4e";
      CallContentsFind "octo/mono" "/a/.drone.yml" "9c4e";
      CallContentsFind "octo/mono" "/.drone.yml" "9c4e"]).
Proof. split; vm_compute; reflexivity. Qed.

(** The part of C2 that holds: content that does not parse stops the
    walk with the error of the parser. *)
Lemma unparsable_config_aborts yaml p req f dir cache cd log file e lg :
  file = path_Join [path_Join [dir; ".."]; Config (Repo (Request req))] ->
  cache !! file = None ->
  getScmDroneConfig yaml p req file log = (("", true, Some e), lg) ->
  walk yaml p req (S f) false dir cache cd log = (Returns (Return "" (Some e)), lg).
Proof.
  intros -> L G. now rewrite (walk_fetch _ _ _ _ _ _ _ _ _ _ _ _ _ _ _ eq_refl eq_refl eq_refl L G).
Qed.

(** The scanner returns no data, or panics. *)
Lemma scanner_total p req dir depth log :
  fst (getAllConfigData p req dir depth log) = Panics
  \/ exists err, fst (getAllConfigData p req dir depth log) = Returns ("", err).
Proof.
  unfold getAllConfigData, contents_find, emit, ret, mbind, M_bind, mret, M_ret.
  destruct (Contents_Find _ _ _ _) as [ls [e|]]; cbn; [right; eexists; reflexivity|].
  destruct (maxDepth p <? depth)%Z; cbn; [right; eexists; reflexivity|].
  destruct ls; cbn; [right; eexists; reflexivity | now left].
Qed.

(** C3 (what the code does).  The scanner never returns a document: it
    returns no data with the error of the SCM, no data and no error beyond
    the maximal depth, and otherwise no data and the listing itself as an
    error (or it panics when there is no listing).  With the fallback
    enabled and a repository without changes whose root can be listed,
    [Find] therefore returns the listing as an error, and the
    configuration at the root is not looked at. *)
Theorem scanner_returns_no_document :
  (forall p req dir depth log,
     fst (getAllConfigData p req dir depth log) = Panics
     \/ exists err, fst (getAllConfigData p req dir depth log) = Returns ("", err))
  /\ resolve (scenario_plugin true true) quiet_repo (push_event ".drone.yml" "1f3a" "9c4e")
  = (Returns (inr ".drone.yml"),
     [CallGitChanges "octo/mono" "9c4e"; CallContentsFind "octo/mono" "/" "9c4e"]).
Proof.
  split; [exact scanner_total | vm_compute; reflexivity].
Qed.

(** [Find] never runs out of fuel. *)
Lemma Find_has_fuel yaml newDefault new p droneRequest log :
  fst (Find yaml newDefault new p droneRequest log) <> OutOfFuel.
Proof.
  unfold Find.
  destruct (if String.eqb (server p) "" then inl newDefault else new (server p))
    as [client|e]; [|discriminate].
  unfold mbind, M_bind.
  set (rq := {| Request := droneRequest; Client := client |}).
  destruct (getScmChanges p rq log) as [[changed [e|]] lg]; [discriminate|].
  assert (A : forall dir depth lg0, fst (getAllConfigData p rq dir depth lg0) <> OutOfFuel).
  { intros dir depth lg0.
    destruct (scanner_total p rq dir depth lg0) as [E|[err E]]; rewrite E; discriminate. }
  assert (Fin : forall (r : outcome (string * option error)) (lg' : list Call),
    r <> OutOfFuel ->
    fst (match r with
         | Returns (configData, Some e) => ret (Returns (inr e))
         | Returns (configData, None) =>
             if String.eqb configData ""
             then ret (Returns (inr "did not find a .drone.yml"))
             else ret (Returns (inl {| Data := cleanup configData |}))
         | Panics => ret Panics
         | OutOfFuel => ret OutOfFuel
         end lg') <> OutOfFuel).
  { intros r lg' N. destruct r as [[cd [e|]]| |]; try discriminate; [|congruence].
    destruct (String.eqb cd ""); discriminate. }
  destruct changed as [files|].
  - destruct (getScmConfigData_returns yaml p rq files lg) as (cd & err & E).
    destruct (getScmConfigData yaml p rq files lg) as [r lg']. cbn [fst] in E.
    apply Fin. rewrite E. discriminate.
  - destruct (String.eqb (Trigger (Build droneRequest)) "@cron");
      [|destruct (fallback p)].
    1,2: specialize (A "/" 0%Z lg);
         destruct (getAllConfigData p rq "/" 0 lg) as [r lg']; now apply Fin.
    apply (Fin (Returns ("", None)) lg). discriminate.
Qed.

(** ** Examples *)

Example pull_request_changes :
  snd (run (getScmChanges (scenario_plugin true false)
              {| Request := {| Build := {| Trigger := "pull_request"; Ref := "refs/pull/42/head";
                                           Before := ""; After := "9c4e" |};
                               Repo := {| Slug := "octo/mono"; Config := ".drone.yml" |} |};
                 Client := quiet_repo |}))
  = [CallPullRequestChanges "octo/mono" 42].
Proof. reflexivity. Qed.

Example hyphen_runs_not_isolated : runs_isolated ("----" +:+ LF +:+ "-----") = false.
Proof. reflexivity. Qed.

Example separators_collapse :
  cleanup ("---" +:+ LF +:+ "---" +:+ LF +:+ "kind: pipeline") = "---kind: pipeline".
Proof. reflexivity. Qed.


Example path_Join_parent : path_Join ["/a/b/x.go"; ".."] = "/a/b".
Proof. reflexivity. Qed.
Example path_Join_root : path_Join ["/"; ".."] = "/".
Proof. reflexivity. Qed.
Example path_Join_cfg : path_Join ["/"; ".drone.yml"] = "/.drone.yml".
Proof. reflexivity. Qed.
Example path_Clean_rel : path_Clean "a/../../b/./c//d/.." = "../b/c".
Proof. reflexivity. Qed.
Example trim_ex : strings_Trim ("  " +:+ LF +:+ "a b" +:+ LF +:+ " ") (" " +:+ LF) = "a b".
Proof. reflexivity. Qed.
Example repl_ex : strings_ReplaceAll "a....b...c.." "..." "" = "a.bc..".
Proof. reflexivity. Qed.
Example atoi_ex : strconv_Atoi "42" = inl 42%Z /\ strconv_Atoi "-7" = inl (-7)%Z /\ strconv_Atoi "x" = inr (atoi_error "x" "invalid syntax").
Proof. repeat split; reflexivity. Qed.

(** * Further properties of the code *)

(** ** [droneConfigAppend] *)

Lemma append_one_extends (acc a : string) : exists added, append_one acc a = acc +:+ added.
Proof.
  unfold append_one.
  destruct (negb (String.eqb (strings_Trim a (" " +:+ LF)) ""));
    [|exists ""; now rewrite append_nil_r].
  set (a' := if negb (strings_HasPrefix _ _) then _ else _).
  destruct (negb (strings_HasSuffix (acc +:+ a') LF)).
  - exists (a' +:+ LF). now rewrite append_assoc.
  - now exists a'.
Qed.

(** X1.  The accumulator is only ever extended: whatever fragments are
    appended, the result starts with the accumulator as it was. *)
Theorem append_only_extends (acc : string) (appends : list string) :
  exists added, droneConfigAppend acc appends = acc +:+ added.
Proof.
  unfold droneConfigAppend. revert acc.
  induction appends as [|a l IH]; intros acc; [exists ""; now rewrite append_nil_r|].
  cbn [fold_left]. destruct (append_one_extends acc a) as [x ->].
  destruct (IH (acc +:+ x)) as [y ->]. exists (x +:+ y). apply append_assoc.
Qed.

Lemma has_suffix_lf_app (x : string) : strings_HasSuffix (x +:+ LF) LF = true.
Proof. rewrite has_suffix_app by discriminate. reflexivity. Qed.

Lemma append_one_terminated (acc a : string) :
  acc = "" \/ strings_HasSuffix acc LF = true ->
  append_one acc a = "" \/ strings_HasSuffix (append_one acc a) LF = true.
Proof.
  intros H. unfold append_one.
  destruct (negb (String.eqb (strings_Trim a (" " +:+ LF)) "")); [|exact H].
  set (a' := if negb (strings_HasPrefix _ _) then _ else _).
  destruct (strings_HasSuffix (acc +:+ a') LF) eqn:E; cbn [negb]; right;
    [exact E | apply has_suffix_lf_app].
Qed.

(** X2.  An accumulator that is empty or ends in a line feed stays so,
    whatever fragments are appended. *)
Theorem append_keeps_final_line_feed (acc : string) (appends : list string) :
  acc = "" \/ strings_HasSuffix acc LF = true ->
  droneConfigAppend acc appends = ""
  \/ strings_HasSuffix (droneConfigAppend acc appends) LF = true.
Proof.
  unfold droneConfigAppend. revert acc.
  induction appends as [|a l IH]; intros acc H; [exact H|].
  cbn [fold_left]. apply IH. now apply append_one_terminated.
Qed.

Lemma append_keeps_final_line_feed_witness :
  (pipeline "a" = "" \/ strings_HasSuffix (pipeline "a") LF = true)
  /\ (droneConfigAppend (pipeline "a") ["kind: x"; TAB] = ""
      \/ strings_HasSuffix (droneConfigAppend (pipeline "a") ["kind: x"; TAB]) LF = true).
Proof.
  split; [right; reflexivity|].
  apply (append_keeps_final_line_feed (pipeline "a") ["kind: x"; TAB]).
  right. reflexivity.
Defined.

(** X3.  A fragment with some content adds, after the accumulator, its
    trimmed text and one line feed, with a separator line in front unless
    the trimmed text starts with one: a separator is never doubled and
    never missing. *)
Theorem append_fragment_with_content (acc a : string) :
  String.eqb (strings_Trim a (" " +:+ LF)) "" = false ->
  droneConfigAppend acc [a]
  = acc
    +:+ (if strings_HasPrefix (strings_Trim a (" " +:+ LF)) ("---" +:+ LF)
         then "" else "---" +:+ LF)
    +:+ strings_Trim a (" " +:+ LF) +:+ LF.
Proof.
  intros H. apply String.eqb_neq in H.
  unfold droneConfigAppend. cbn [fold_left].
  rewrite (append_one_document _ _ H). unfold document.
  destruct (strings_HasPrefix (strings_Trim a (" " +:+ LF)) ("---" +:+ LF)); reflexivity.
Qed.

Lemma append_fragment_with_content_witness :
  String.eqb (strings_Trim (LF +:+ "kind: x" +:+ LF +:+ LF) (" " +:+ LF)) "" = false
  /\ droneConfigAppend (pipeline "a") [LF +:+ "kind: x" +:+ LF +:+ LF]
     = pipeline "a" +:+ "---" +:+ LF +:+ "kind: x" +:+ LF.
Proof.
  split; [reflexivity|].
  apply (append_fragment_with_content (pipeline "a") (LF +:+ "kind: x" +:+ LF +:+ LF)).
  reflexivity.
Defined.

Lemma trim_left_head (s cutset : string) :
  match strings_TrimLeft s cutset with
  | "" => True
  | String c _ => in_cutset cutset c = false
  end.
Proof.
  induction s as [|c s IH]; [exact I|].
  cbn [strings_TrimLeft]. destruct (in_cutset cutset c) eqn:E; [exact IH | exact E].
Qed.

Lemma trim_right_idem (s cutset : string) :
  strings_TrimRight (strings_TrimRight s cutset) cutset = strings_TrimRight s cutset.
Proof.
  induction s as [|c s IH]; [reflexivity|].
  cbn [strings_TrimRight].
  destruct (in_cutset cutset c && String.eqb (strings_TrimRight s cutset) "") eqn:E;
    [reflexivity|].
  cbn [strings_TrimRight]. rewrite IH, E. reflexivity.
Qed.

Lemma trim_idem (s cutset : string) :
  strings_Trim (strings_Trim s cutset) cutset = strings_Trim s cutset.
Proof.
  unfold strings_Trim.
  pose proof (trim_left_head s cutset) as H.
  destruct (strings_TrimLeft s cutset) as [|c u]; [reflexivity|].
  cbn [strings_TrimRight]. rewrite H. cbn [andb strings_TrimLeft]. rewrite H.
  cbn [strings_TrimRight]. rewrite H. cbn [andb]. now rewrite trim_right_idem.
Qed.

(** X4.  Spaces and line feeds around a fragment do not matter: appending
    a fragment and appending its trimmed text give the same result. *)
Theorem append_ignores_surrounding_blanks (acc a : string) :
  droneConfigAppend acc [a] = droneConfigAppend acc [strings_Trim a (" " +:+ LF)].
Proof.
  unfold droneConfigAppend. cbn [fold_left]. unfold append_one.
  now rewrite trim_idem.
Qed.

(** ** Fetching and validating one candidate *)

(** X5.  What [getScmDroneConfig] can return.  Content comes back only
    without an error and without the critical flag, and it is then the
    very data of the SCM, which parsed to a name and a kind that are not
    empty; the critical flag is raised only for a file that the SCM did
    return, and never together with content. *)
Theorem fetch_and_validate_outcomes (yaml : string -> droneConfig + error)
    (p : plugin) (req : request) (file : string) (log : list Call) :
  let found := Contents_Find (Client req) (Slug (Repo (Request req))) file
                 (After (Build (Request req))) in
  let '(content, critical, err) := fst (getScmDroneConfig yaml p req file log) in
  (err = None /\ critical = false <->
     exists d dc, found = (Some d, None) /\ content = ContentData d
                  /\ yaml content = inl dc /\ Name dc <> "" /\ Kind dc <> "")
  /\ (critical = true -> content = "" /\ exists d, found = (Some d, None))
  /\ (content <> "" -> err = None /\ critical = false).
Proof.
  unfold getScmDroneConfig, getScmFile, contents_find, emit, ret, mbind, M_bind, mret, M_ret.
  cbv zeta.
  destruct (Contents_Find (Client req) _ file _) as [[d|] [e|]]; cbn.
  1,3,4: (split; [split; [intros [? ?]; discriminate | intros (? & ? & ? & _); discriminate]|]);
         (split; [discriminate | intros H; congruence]).
  destruct (yaml (ContentData d)) as [dc|e] eqn:Y; cbn.
  2:{ split; [split; [intros [? ?]; discriminate|]|].
      - intros (d' & dc & E & Ec & Y' & _). injection E as <-. rewrite Ec in Y'. congruence.
      - split; [intros _; split; [reflexivity | now exists d] | intros H; congruence]. }
  destruct (String.eqb (Name dc) "") eqn:N; cbn.
  { split; [split; [intros [? ?]; discriminate|]|].
    - intros (d' & dc' & E & Ec & Y' & Hn & _). injection E as <-.
      rewrite Ec, Y in Y'. injection Y' as <-. apply String.eqb_eq in N. congruence.
    - split; [intros _; split; [reflexivity | now exists d] | intros H; congruence]. }
  destruct (String.eqb (Kind dc) "") eqn:K; cbn.
  { split; [split; [intros [? ?]; discriminate|]|].
    - intros (d' & dc' & E & Ec & Y' & _ & Hk). injection E as <-.
      rewrite Ec, Y in Y'. injection Y' as <-. apply String.eqb_eq in K. congruence.
    - split; [intros _; split; [reflexivity | now exists d] | intros H; congruence]. }
  apply String.eqb_neq in N, K.
  split; [split; [intros _; exists d, dc; auto | auto]|].
  split; [discriminate | auto].
Qed.

(** ** The resolver of the change set *)

(** X6.  [getScmChanges] returns a list only without an error, never a
    list without elements, and the list is the one the SCM reported, in
    its order. *)
Theorem changes_are_nil_or_listed (p : plugin) (req : request) (log : list Call)
    (changed : option (list string)) (err : option error) :
  fst (getScmChanges p req log) = (changed, err) ->
  (err <> None -> changed = None)
  /\ changed <> Some []
  /\ (forall files, changed = Some files -> err = None /\ listed_changes req = Some files).
Proof.
  assert (R : forall l c e, changes_result l = (c, e) ->
            e = None /\ c <> Some [] /\ (forall files, c = Some files -> files = l)).
  { intros l c e. unfold changes_result. destruct l; cbn; intros E; injection E as <- <-;
      (split; [reflexivity|]); (split; [discriminate|]); intros ? E; congruence. }
  unfold getScmChanges, listed_changes.
  unfold pr_list_changes, git_list_changes, emit, ret, mbind, M_bind, mret, M_ret.
  destruct (String.eqb (Trigger (Build (Request req))) "@cron").
  { cbn. intros E. injection E as <- <-. repeat split; discriminate. }
  destruct (strings_HasPrefix (Ref (Build (Request req))) "refs/pull/").
  - destruct (strconv_Atoi _) as [n|e].
    2:{ cbn. intros E. injection E as <- <-. repeat split; discriminate. }
    destruct (PullRequests_ListChanges _ _ _) as [files [e|]]; cbn.
    { intros E. injection E as <- <-. repeat split; discriminate. }
    intros E. destruct (R _ _ _ E) as (-> & Hne & Hl).
    split; [congruence|]. split; [exact Hne|].
    intros fs ->. split; [reflexivity|]. now rewrite (Hl _ eq_refl).
  - destruct (Git_ListChanges _ _ _) as [files [e|]]; cbn.
    { intros E. injection E as <- <-. repeat split; discriminate. }
    intros E. destruct (R _ _ _ E) as (-> & Hne & Hl).
    split; [congruence|]. split; [exact Hne|].
    intros fs ->. split; [reflexivity|]. now rewrite (Hl _ eq_refl).
Qed.

Lemma changes_are_nil_or_listed_witness :
  fst (run (getScmChanges (scenario_plugin true false)
              {| Request := push_event ".pipeline.yml" "1f3a" "9c4e";
                 Client := nested_repo (pipeline "ab") (pipeline "a") |}))
  = (Some ["a/b/x.go"; "a/y.go"], None)
  /\ listed_changes {| Request := push_event ".pipeline.yml" "1f3a" "9c4e";
                       Client := nested_repo (pipeline "ab") (pipeline "a") |}
     = Some ["a/b/x.go"; "a/y.go"].
Proof.
  split; [reflexivity|].
  exact (proj2 (proj2 (proj2
    (changes_are_nil_or_listed (scenario_plugin true false)
       {| Request := push_event ".pipeline.yml" "1f3a" "9c4e";
          Client := nested_repo (pipeline "ab") (pipeline "a") |} []
       (Some ["a/b/x.go"; "a/y.go"]) None eq_refl)) _ eq_refl)).
Defined.

Lemma pull_reference_number (num rest : string) :
  no_slash num = true ->
  nth 2 (strings_Split ("refs/pull/" +:+ num +:+ "/" +:+ rest) "/") "" = num.
Proof.
  intros H.
  change ("refs/pull/" +:+ num +:+ "/" +:+ rest)
    with ("refs" +:+ "/" +:+ "pull" +:+ "/" +:+ num +:+ "/" +:+ rest).
  rewrite !split_app_sep, (split_plain _ H). reflexivity.
Qed.

(** X7.  For a reference refs/pull/<number>/..., the changed files are
    asked of the pull request service, with the number read from the
    reference, and of no other service; when the number does not read as
    an integer, the error of the conversion is returned and the SCM is not
    called at all. *)
Theorem pull_request_changes_by_number (p : plugin) (req : request) (log : list Call)
    (num rest : string) :
  String.eqb (Trigger (Build (Request req))) "@cron" = false ->
  Ref (Build (Request req)) = "refs/pull/" +:+ num +:+ "/" +:+ rest ->
  no_slash num = true ->
  match strconv_Atoi num with
  | inl number =>
      snd (getScmChanges p req log)
      = log ++ [CallPullRequestChanges (Slug (Repo (Request req))) number]
  | inr e => getScmChanges p req log = ((None, Some e), log)
  end.
Proof.
  intros C R N. unfold getScmChanges. rewrite C, R.
  change (strings_HasPrefix ("refs/pull/" +:+ num +:+ "/" +:+ rest) "refs/pull/") with true.
  cbv iota. rewrite (pull_reference_number _ _ N).
  destruct (strconv_Atoi num) as [n|e]; [|reflexivity].
  unfold pr_list_changes, emit, ret, mbind, M_bind, mret, M_ret.
  destruct (PullRequests_ListChanges _ _ _) as [files [e|]]; reflexivity.
Qed.

Lemma pull_request_changes_by_number_witness :
  snd (run (getScmChanges (scenario_plugin true false)
              {| Request := pull_event ".drone.yml" "refs/pull/42/head" "9c4e";
                 Client := quiet_repo |}))
  = [CallPullRequestChanges "octo/mono" 42].
Proof.
  apply (pull_request_changes_by_number (scenario_plugin true false)
           {| Request := pull_event ".drone.yml" "refs/pull/42/head" "9c4e";
              Client := quiet_repo |} [] "42" "head"); reflexivity.
Defined.

(** ** The walk, turn by turn *)

(** One turn of the loop [for !done], written out. *)
Lemma walk_cases yaml p req f dir cache cd log :
  let dir' := path_Join [dir; ".."] in
  let file := path_Join [dir'; Config (Repo (Request req))] in
  let log' := log ++ [CallContentsFind (Slug (Repo (Request req))) file
                        (After (Build (Request req)))] in
  walk yaml p req (S f) false dir cache cd log =
  match cache !! file with
  | Some _ => walk yaml p req f (String.eqb dir "/") dir' cache cd log
  | None =>
      match fst (getScmDroneConfig yaml p req file log) with
      | (fc, crit, Some e) =>
          if crit then (Returns (Return "" (Some e)), log')
          else walk yaml p req f (String.eqb dir "/") dir' (<[file := true]> cache) cd log'
      | (fc, crit, None) =>
          if negb (concat p)
          then (Returns (Continue (<[file := true]> cache) (droneConfigAppend cd [fc])), log')
          else walk yaml p req f (String.eqb dir "/") dir' (<[file := true]> cache)
                 (droneConfigAppend cd [fc]) log'
      end
  end.
Proof.
  intros dir' file log'.
  destruct (cache !! file) eqn:L.
  - exact (walk_cached _ _ _ _ _ _ _ _ _ _ _ _ eq_refl eq_refl eq_refl L).
  - pose proof (getScmDroneConfig_log yaml p req file log) as E. fold log' in E.
    destruct (getScmDroneConfig yaml p req file log) as [[[fc crit] err] lg] eqn:G.
    cbn [fst snd] in *. subst lg.
    exact (walk_fetch _ _ _ _ _ _ _ _ _ _ _ _ _ _ _ eq_refl eq_refl eq_refl L G).
Qed.

(** The log is only ever extended. *)
Lemma walk_log_extends yaml p req fuel :
  forall done dir cache cd log,
  exists ext, snd (walk yaml p req fuel done dir cache cd log) = log ++ ext.
Proof.
  induction fuel as [|f IH]; intros done dir cache cd log.
  - destruct done; exists []; cbn; now rewrite app_nil_r.
  - destruct done; [exists []; cbn; now rewrite app_nil_r|].
    rewrite walk_cases. cbv zeta.
    set (file := path_Join [path_Join [dir; ".."]; Config (Repo (Request req))]).
    set (call := CallContentsFind _ file _).
    assert (K : forall d c x, exists ext,
              snd (walk yaml p req f d (path_Join [dir; ".."]) c x (log ++ [call]))
              = log ++ ext).
    { intros d c x. destruct (IH d (path_Join [dir; ".."]) c x (log ++ [call])) as [ext E].
      exists ([call] ++ ext). now rewrite E, <- app_assoc. }
    destruct (cache !! file); [apply IH|].
    destruct (fst (getScmDroneConfig yaml p req file log)) as [[fc crit] [e|]].
    + destruct crit; [exists [call]; reflexivity | apply K].
    + destruct (negb (concat p)); [exists [call]; reflexivity | apply K].
Qed.

Lemma scan_changed_log_extends yaml p req changedFiles :
  forall cache cd log,
  exists ext, snd (scan_changed yaml p req changedFiles cache cd log) = log ++ ext.
Proof.
  induction changedFiles as [|file rest IH]; intros cache cd log;
    [exists []; cbn; now rewrite app_nil_r|].
  cbn [scan_changed]. unfold mbind, M_bind.
  set (file' := if negb (strings_HasPrefix file "/") then "/" +:+ file else file).
  destruct (walk_log_extends yaml p req (String.length file' + 2) false file' cache cd log)
    as [ext E].
  destruct (walk yaml p req (String.length file' + 2) false file' cache cd log) as [r lg].
  cbn [snd] in E. subst lg.
  destruct r as [[cache' cd'|cd' err]| |]; try (exists ext; reflexivity).
  destruct (IH cache' cd' (log ++ ext)) as [ext' E']. exists (ext ++ ext').
  now rewrite E', <- app_assoc.
Qed.

(** [getScmConfigData] in terms of the loop over the changed files. *)
Lemma getScmConfigData_scan yaml p req changedFiles log :
  getScmConfigData yaml p req changedFiles log =
  match scan_changed yaml p req changedFiles ∅ "" log with
  | (Returns (Continue _ cd), lg) => (Returns (cd, None), lg)
  | (Returns (Return cd err), lg) => (Returns (cd, err), lg)
  | (Panics, lg) => (Panics, lg)
  | (OutOfFuel, lg) => (OutOfFuel, lg)
  end.
Proof.
  unfold getScmConfigData, mbind, M_bind.
  destruct (scan_changed yaml p req changedFiles ∅ "" log) as [[[? ?|? ?]| |] lg];
    reflexivity.
Qed.

(** A property of the data that every append keeps, and that holds of the
    empty data, holds of what the walk and the loop over the changed
    files hand on; when the function is left early, the data are empty. *)
Lemma walk_data yaml p req (Q : string -> Prop) :
  Q "" -> (forall cd a, Q cd -> Q (droneConfigAppend cd [a])) ->
  forall fuel done dir cache cd log,
  Q cd ->
  match fst (walk yaml p req fuel done dir cache cd log) with
  | Returns (Continue _ cd') => Q cd'
  | Returns (Return cd' _) => cd' = ""
  | _ => True
  end.
Proof.
  intros Q0 Qa. induction fuel as [|f IH]; intros done dir cache cd log H.
  - destruct done; cbn; [exact H | exact I].
  - destruct done; [exact H|].
    rewrite walk_cases. cbv zeta.
    destruct (_ !! _); [now apply IH|].
    destruct (fst (getScmDroneConfig yaml p req _ log)) as [[fc crit] [e|]].
    + destruct crit; [reflexivity | now apply IH].
    + destruct (negb (concat p)); [now apply Qa | apply IH; now apply Qa].
Qed.

Lemma scan_changed_data yaml p req (Q : string -> Prop) :
  Q "" -> (forall cd a, Q cd -> Q (droneConfigAppend cd [a])) ->
  forall changedFiles cache cd log,
  Q cd ->
  match fst (scan_changed yaml p req changedFiles cache cd log) with
  | Returns (Continue _ cd') => Q cd'
  | Returns (Return cd' _) => cd' = ""
  | _ => True
  end.
Proof.
  intros Q0 Qa. induction changedFiles as [|file rest IH]; intros cache cd log H; [exact H|].
  cbn [scan_changed]. unfold mbind, M_bind.
  set (file' := if negb (strings_HasPrefix file "/") then "/" +:+ file else file).
  pose proof (walk_data yaml p req Q Q0 Qa (String.length file' + 2) false file' cache cd log H)
    as W.
  destruct (walk yaml p req (String.length file' + 2) false file' cache cd log) as [r lg].
  cbn [fst] in W. destruct r as [[cache' cd'|cd' err]| |]; try exact W; try exact I.
  now apply IH.
Qed.

Lemma getScmConfigData_data yaml p req (Q : string -> Prop) changedFiles log cd err :
  Q "" -> (forall cd a, Q cd -> Q (droneConfigAppend cd [a])) ->
  fst (getScmConfigData yaml p req changedFiles log) = Returns (cd, err) ->
  Q cd /\ (err <> None -> cd = "").
Proof.
  intros Q0 Qa. rewrite getScmConfigData_scan.
  pose proof (scan_changed_data yaml p req Q Q0 Qa changedFiles ∅ "" log Q0) as S.
  destruct (scan_changed yaml p req changedFiles ∅ "" log) as [[[c x|x e]| |] lg];
    cbn [fst] in *; intros E; try discriminate E; injection E as <- <-.
  - split; [exact S | congruence].
  - subst x. split; [exact Q0 | reflexivity].
Qed.

Lemma has_prefix_app (x y pre : string) :
  strings_HasPrefix x pre = true -> strings_HasPrefix (x +:+ y) pre = true.
Proof.
  intros H. destruct (has_prefix_inv _ _ H) as [r ->]. rewrite append_assoc.
  clear H. induction pre as [|c pre IH]; [reflexivity|].
  cbn [String.append strings_HasPrefix]. now rewrite Ascii.eqb_refl, IH.
Qed.

Lemma append_data_form (cd a : string) :
  (cd = "" \/ (strings_HasPrefix cd ("---" +:+ LF) = true /\ strings_HasSuffix cd LF = true)) ->
  let r := droneConfigAppend cd [a] in
  r = "" \/ (strings_HasPrefix r ("---" +:+ LF) = true /\ strings_HasSuffix r LF = true).
Proof.
  intros H r. subst r.
  destruct (String.eqb (strings_Trim a (" " +:+ LF)) "") eqn:T.
  - unfold droneConfigAppend. cbn [fold_left]. unfold append_one. now rewrite T.
  - right. split.
    + pose proof T as T'. apply String.eqb_neq in T'.
      unfold droneConfigAppend. cbn [fold_left]. rewrite (append_one_document _ _ T').
      destruct H as [->|[P _]]; [|now apply has_prefix_app].
      cbn [String.append]. unfold document.
      destruct (strings_HasPrefix (strings_Trim a (" " +:+ LF)) ("---" +:+ LF)) eqn:P;
        [now apply has_prefix_app | reflexivity].
    + assert (W : cd = "" \/ strings_HasSuffix cd LF = true) by tauto.
      destruct (append_one_terminated cd a W) as [E|E]; [|exact E].
      exfalso. apply String.eqb_neq in T.
      unfold droneConfigAppend in *. rewrite (append_one_document _ _ T) in E.
      unfold document in E.
      destruct cd; [|discriminate E]. cbn [String.append] in E.
      destruct (if strings_HasPrefix _ _ then _ else _); discriminate E.
Qed.

(** X8.  The data that [getScmConfigData] returns are all or nothing:
    with an error they are empty, and otherwise they are empty or start
    with a separator line and end in a line feed. *)
Theorem config_data_all_or_nothing (yaml : string -> droneConfig + error)
    (p : plugin) (req : request) (changedFiles : list string) (log : list Call)
    (configData : string) (err : option error) :
  fst (getScmConfigData yaml p req changedFiles log) = Returns (configData, err) ->
  (err <> None -> configData = "")
  /\ (configData = ""
      \/ (strings_HasPrefix configData ("---" +:+ LF) = true
          /\ strings_HasSuffix configData LF = true)).
Proof.
  intros E.
  destruct (getScmConfigData_data yaml p req
              (fun cd => cd = "" \/ (strings_HasPrefix cd ("---" +:+ LF) = true
                                     /\ strings_HasSuffix cd LF = true))
              changedFiles log configData err) as [H1 H2]; auto.
  intros cd a. apply append_data_form.
Qed.

Lemma config_data_all_or_nothing_witness :
  fst (run (getScmConfigData scenario_yaml (scenario_plugin true false)
              {| Request := push_event ".drone.yml" "1f3a" "9c4e"; Client := nameless_repo |}
              ["a/x.go"]))
  = Returns ("---" +:+ LF +:+ pipeline "root", None)
  /\ strings_HasPrefix ("---" +:+ LF +:+ pipeline "root") ("---" +:+ LF) = true.
Proof.
  split; [reflexivity|].
  destruct (config_data_all_or_nothing scenario_yaml (scenario_plugin true false)
              {| Request := push_event ".drone.yml" "1f3a" "9c4e"; Client := nameless_repo |}
              ["a/x.go"] [] ("---" +:+ LF +:+ pipeline "root") None eq_refl)
    as [_ [E|[P _]]]; [discriminate E | exact P].
Defined.

(** ** What the walk fetches *)

Lemma fetch_not_found yaml p req file log :
  (forall path,
     fst (Contents_Find (Client req) (Slug (Repo (Request req))) path
            (After (Build (Request req)))) = None
     \/ snd (Contents_Find (Client req) (Slug (Repo (Request req))) path
               (After (Build (Request req)))) <> None) ->
  exists e, fst (getScmDroneConfig yaml p req file log) = ("", false, Some e).
Proof.
  intros H. specialize (H file).
  unfold getScmDroneConfig, getScmFile, contents_find, emit, ret, mbind, M_bind, mret, M_ret.
  destruct (Contents_Find (Client req) _ file _) as [[d|] [e|]]; cbn in *;
    try (eexists; reflexivity).
  destruct H as [H|H]; [discriminate H | congruence].
Qed.

Lemma walk_nothing_found yaml p req :
  (forall path,
     fst (Contents_Find (Client req) (Slug (Repo (Request req))) path
            (After (Build (Request req)))) = None
     \/ snd (Contents_Find (Client req) (Slug (Repo (Request req))) path
               (After (Build (Request req)))) <> None) ->
  forall fuel done dir cache log,
  match fst (walk yaml p req fuel done dir cache "" log) with
  | Returns (Continue _ cd') => cd' = ""
  | Returns (Return _ _) => False
  | _ => True
  end.
Proof.
  intros H. induction fuel as [|f IH]; intros done dir cache log.
  - destruct done; cbn; [reflexivity | exact I].
  - destruct done; [reflexivity|].
    rewrite walk_cases. cbv zeta.
    destruct (_ !! _); [apply IH|].
    destruct (fetch_not_found yaml p req
                (path_Join [path_Join [dir; ".."]; Config (Repo (Request req))]) log H)
      as [e ->].
    apply IH.
Qed.

Lemma scan_nothing_found yaml p req :
  (forall path,
     fst (Contents_Find (Client req) (Slug (Repo (Request req))) path
            (After (Build (Request req)))) = None
     \/ snd (Contents_Find (Client req) (Slug (Repo (Request req))) path
               (After (Build (Request req)))) <> None) ->
  forall changedFiles cache log,
  match fst (scan_changed yaml p req changedFiles cache "" log) with
  | Returns (Continue _ cd') => cd' = ""
  | Returns (Return _ _) => False
  | _ => True
  end.
Proof.
  intros H. induction changedFiles as [|file rest IH]; intros cache log; [reflexivity|].
  cbn [scan_changed]. unfold mbind, M_bind.
  set (file' := if negb (strings_HasPrefix file "/") then "/" +:+ file else file).
  pose proof (walk_nothing_found yaml p req H (String.length file' + 2) false file' cache log)
    as W.
  destruct (walk yaml p req (String.length file' + 2) false file' cache "" log) as [r lg].
  cbn [fst] in W. destruct r as [[cache' cd'|cd' err]| |]; try exact W; try exact I.
  subst cd'. apply IH.
Qed.

(** X9.  When the SCM has no file at any path (it answers every request
    with an error or without content), [getScmConfigData] returns empty
    data and no error, whatever files changed, and [Find] then reports
    that no configuration was found. *)
Theorem nothing_found_anywhere (yaml : string -> droneConfig + error)
    (newDefault : scm_Client) (new : string -> scm_Client + error)
    (p : plugin) (req : request) (changedFiles : list string) :
  (forall path,
     fst (Contents_Find (Client req) (Slug (Repo (Request req))) path
            (After (Build (Request req)))) = None
     \/ snd (Contents_Find (Client req) (Slug (Repo (Request req))) path
               (After (Build (Request req)))) <> None) ->
  (if String.eqb (server p) "" then inl newDefault else new (server p)) = inl (Client req) ->
  fst (run (getScmChanges p req)) = (Some changedFiles, None) ->
  fst (run (getScmConfigData yaml p req changedFiles)) = Returns ("", None)
  /\ fst (run (Find yaml newDefault new p (Request req)))
     = Returns (inr "did not find a .drone.yml").
Proof.
  intros H C G.
  assert (D : forall log, fst (getScmConfigData yaml p req changedFiles log)
                          = Returns ("", None)).
  { intros log. rewrite getScmConfigData_scan.
    pose proof (scan_nothing_found yaml p req H changedFiles ∅ log) as S.
    destruct (scan_changed_returns yaml p req changedFiles ∅ "" log) as [fl E].
    destruct (scan_changed yaml p req changedFiles ∅ "" log) as [r lg].
    cbn [fst] in *. subst r. destruct fl as [c cd|cd e]; [now subst cd | contradiction]. }
  split; [apply D|].
  unfold run, Find. rewrite C. unfold mbind, M_bind.
  replace {| Request := Request req; Client := Client req |} with req by now destruct req.
  unfold run in G. destruct (getScmChanges p req []) as [[ch er] lg].
  cbn [fst] in G. injection G as -> ->.
  specialize (D lg). destruct (getScmConfigData yaml p req changedFiles lg) as [r lg'].
  cbn [fst] in D. subst r. reflexivity.
Qed.

Lemma nothing_found_anywhere_witness :
  fst (run (getScmConfigData scenario_yaml (scenario_plugin true false)
              {| Request := push_event ".drone.yml" "1f3a" "9c4e"; Client := empty_repo |}
              ["a/b/x.go"; "c.go"]))
  = Returns ("", None)
  /\ fst (resolve (scenario_plugin true false) empty_repo (push_event ".drone.yml" "1f3a" "9c4e"))
     = Returns (inr "did not find a .drone.yml").
Proof.
  apply (nothing_found_anywhere scenario_yaml empty_repo (fun _ => inl empty_repo)
           (scenario_plugin true false)
           {| Request := push_event ".drone.yml" "1f3a" "9c4e"; Client := empty_repo |}
           ["a/b/x.go"; "c.go"]).
  - intros path. right. discriminate.
  - reflexivity.
  - reflexivity.
Defined.

(** X10.  When the first candidate of the first changed file is there
    but does not parse, [getScmConfigData] returns the error of the parser
    and no data after that one request: no other candidate and no other
    changed file is looked at. *)
Theorem unparsable_first_candidate_aborts (yaml : string -> droneConfig + error)
    (p : plugin) (req : request) (file : string) (rest : list string)
    (d : scm_Content) (e : error) :
  let first := if negb (strings_HasPrefix file "/") then "/" +:+ file else file in
  let candidate := path_Join [path_Join [first; ".."]; Config (Repo (Request req))] in
  Contents_Find (Client req) (Slug (Repo (Request req))) candidate
    (After (Build (Request req))) = (Some d, None) ->
  yaml (ContentData d) = inr e ->
  run (getScmConfigData yaml p req (file :: rest))
  = (Returns ("", Some e),
     [CallContentsFind (Slug (Repo (Request req))) candidate (After (Build (Request req)))]).
Proof.
  intros first candidate F Y.
  unfold run. rewrite getScmConfigData_scan. cbn [scan_changed]. unfold mbind, M_bind.
  fold first.
  replace (String.length first + 2) with (S (String.length first + 1)) by lia.
  rewrite walk_cases. cbv zeta. fold candidate. rewrite lookup_empty.
  clearbody candidate.
  assert (G : fst (getScmDroneConfig yaml p req candidate []) = ("", true, Some e)).
  { unfold getScmDroneConfig, getScmFile, contents_find, emit, ret, mbind, M_bind, mret, M_ret.
    cbn. rewrite F. cbn. now rewrite Y. }
  rewrite G. reflexivity.
Qed.

Lemma unparsable_first_candidate_aborts_witness :
  run (getScmConfigData scenario_yaml (scenario_plugin true false)
         {| Request := push_event ".drone.yml" "1f3a" "9c4e"; Client := broken_repo |}
         ["a/x.go"; "b/y.go"])
  = (Returns ("", Some "yaml: line 1: did not find expected node content"),
     [CallContentsFind "octo/mono" "/a/.drone.yml" "9c4e"]).
Proof.
  apply (unparsable_first_candidate_aborts scenario_yaml (scenario_plugin true false)
           {| Request := push_event ".drone.yml" "1f3a" "9c4e"; Client := broken_repo |}
           "a/x.go" ["b/y.go"]
           {| ContentPath := "/a/.drone.yml"; ContentData := "kind: [" +:+ LF |});
    reflexivity.
Defined.

Lemma join_rooted (d c : string) :
  strings_HasPrefix d "/" = true -> strings_HasPrefix (path_Join [d; c]) "/" = true.
Proof.
  intros R. destruct (has_prefix_inv _ _ R) as [r ->].
  cbn [path_Join String.append String.eqb strings_Join]. unfold path_Clean.
  change (String "/" r +:+ "/" +:+ c =? "") with false. cbv iota.
  change (strings_HasPrefix (String "/" r +:+ "/" +:+ c) "/") with true.
  reflexivity.
Qed.

Lemma walk_calls yaml p req fuel :
  forall done dir cache cd log,
  strings_HasPrefix dir "/" = true ->
  exists paths,
    snd (walk yaml p req fuel done dir cache cd log)
    = log ++ map (fun path => CallContentsFind (Slug (Repo (Request req))) path
                                (After (Build (Request req)))) paths
    /\ Forall (fun path => strings_HasPrefix path "/" = true) paths.
Proof.
  induction fuel as [|f IH]; intros done dir cache cd log R.
  - destruct done; exists []; cbn; now rewrite app_nil_r.
  - destruct done; [exists []; cbn; now rewrite app_nil_r|].
    rewrite walk_cases. cbv zeta.
    pose proof (join_parent_rooted _ R) as R'.
    set (dir' := path_Join [dir; ".."]) in *.
    set (file := path_Join [dir'; Config (Repo (Request req))]).
    pose proof (join_rooted dir' (Config (Repo (Request req))) R') as Rf. fold file in Rf.
    assert (K : forall dn c x, exists paths,
      snd (walk yaml p req f dn dir' c x
             (log ++ [CallContentsFind (Slug (Repo (Request req))) file
                        (After (Build (Request req)))]))
      = log ++ map (fun path => CallContentsFind (Slug (Repo (Request req))) path
                                  (After (Build (Request req)))) paths
      /\ Forall (fun path => strings_HasPrefix path "/" = true) paths).
    { intros dn c x. destruct (IH dn dir' c x (log ++ [CallContentsFind
        (Slug (Repo (Request req))) file (After (Build (Request req)))]) R') as (ps & E & F).
      exists (file :: ps). split; [now rewrite E, <- app_assoc | now constructor]. }
    assert (K1 : exists paths,
      log ++ [CallContentsFind (Slug (Repo (Request req))) file (After (Build (Request req)))]
      = log ++ map (fun path => CallContentsFind (Slug (Repo (Request req))) path
                                  (After (Build (Request req)))) paths
      /\ Forall (fun path => strings_HasPrefix path "/" = true) paths).
    { exists [file]. split; [reflexivity | now repeat constructor]. }
    destruct (cache !! file); [now apply IH|].
    destruct (fst (getScmDroneConfig yaml p req file log)) as [[fc crit] [e|]].
    + destruct crit; [exact K1 | apply K].
    + destruct (negb (concat p)); [exact K1 | apply K].
Qed.

(** X11.  All that [getScmConfigData] asks of the SCM is the content of
    files of the repository of the request, at its after-revision, under
    absolute paths. *)
Theorem only_absolute_paths_at_after_revision (yaml : string -> droneConfig + error)
    (p : plugin) (req : request) (changedFiles : list string) :
  exists paths,
    snd (run (getScmConfigData yaml p req changedFiles))
    = map (fun path => CallContentsFind (Slug (Repo (Request req))) path
                         (After (Build (Request req)))) paths
    /\ Forall (fun path => strings_HasPrefix path "/" = true) paths.
Proof.
  unfold run.
  assert (S : forall files cache cd log, exists paths,
    snd (scan_changed yaml p req files cache cd log)
    = log ++ map (fun path => CallContentsFind (Slug (Repo (Request req))) path
                                (After (Build (Request req)))) paths
    /\ Forall (fun path => strings_HasPrefix path "/" = true) paths).
  { induction files as [|file rest IH]; intros cache cd log;
      [exists []; cbn; now rewrite app_nil_r|].
    cbn [scan_changed]. unfold mbind, M_bind.
    set (file' := if negb (strings_HasPrefix file "/") then "/" +:+ file else file).
    destruct (walk_calls yaml p req (String.length file' + 2) false file' cache cd log
                (rooted_changed_file file)) as (ps & E & F).
    destruct (walk yaml p req (String.length file' + 2) false file' cache cd log) as [r lg].
    cbn [snd] in E. subst lg.
    destruct r as [[cache' cd'|cd' err]| |]; try (exists ps; now split).
    destruct (IH cache' cd' (log ++ map (fun path => CallContentsFind
      (Slug (Repo (Request req))) path (After (Build (Request req)))) ps)) as (ps' & E' & F').
    exists (ps ++ ps'). split; [|now apply Forall_app].
    now rewrite E', map_app, <- app_assoc. }
  rewrite getScmConfigData_scan. destruct (S changedFiles ∅ "" []) as (ps & E & F).
  destruct (scan_changed yaml p req changedFiles ∅ "" []) as [[[? ?|? ?]| |] lg];
    exists ps; now split.
Qed.

Lemma walk_reaches_root yaml p req fuel :
  concat p = true ->
  forall dir cache cd log,
  (forall path, cache !! path <> None -> In path (fetched log)) ->
  match walk yaml p req fuel false dir cache cd log with
  | (Returns (Continue cache' _), lg) =>
      In (path_Join ["/"; Config (Repo (Request req))]) (fetched lg)
      /\ (forall path, cache' !! path <> None -> In path (fetched lg))
  | (Returns (Return _ err), _) => err <> None
  | _ => True
  end.
Proof.
  intros C. induction fuel as [|f IH]; intros dir cache cd log Inv; [exact I|].
  rewrite walk_cases. cbv zeta.
  set (file := path_Join [path_Join [dir; ".."]; Config (Repo (Request req))]).
  set (call := CallContentsFind (Slug (Repo (Request req))) file
                 (After (Build (Request req)))).
  assert (Next : forall cache2 cd2 log2,
    (forall path, cache2 !! path <> None -> In path (fetched log2)) ->
    cache2 !! file <> None ->
    match walk yaml p req f (String.eqb dir "/") (path_Join [dir; ".."]) cache2 cd2 log2 with
    | (Returns (Continue cache' _), lg) =>
        In (path_Join ["/"; Config (Repo (Request req))]) (fetched lg)
        /\ (forall path, cache' !! path <> None -> In path (fetched lg))
    | (Returns (Return _ err), _) => err <> None
    | _ => True
    end).
  { intros cache2 cd2 log2 Inv2 Hf. destruct (String.eqb dir "/") eqn:D; [|now apply IH].
    rewrite walk_done. split; [|exact Inv2].
    apply String.eqb_eq in D. subst dir. apply Inv2. exact Hf. }
  assert (Inv' : forall path, <[file := true]> cache !! path <> None ->
                 In path (fetched (log ++ [call]))).
  { intros path H. rewrite fetched_app. apply in_or_app.
    destruct (decide (file = path)) as [<-|Hne]; [right; now left|].
    left. apply Inv. now rewrite lookup_insert_ne in H. }
  assert (Hin : <[file := true]> cache !! file <> None)
    by (rewrite lookup_insert_eq; discriminate).
  destruct (cache !! file) eqn:L.
  - apply Next; [exact Inv | congruence].
  - destruct (fst (getScmDroneConfig yaml p req file log)) as [[fc crit] [e|]].
    + destruct crit; [discriminate | now apply Next].
    + rewrite C. cbn [negb]. now apply Next.
Qed.

(** X12.  In concat mode, when some file changed and the function
    returns without an error, the candidate at the root of the repository
    was fetched in the course of the request. *)
Theorem root_candidate_always_fetched (yaml : string -> droneConfig + error)
    (p : plugin) (req : request) (changedFiles : list string)
    (configData : string) (log : list Call) :
  concat p = true ->
  changedFiles <> [] ->
  run (getScmConfigData yaml p req changedFiles) = (Returns (configData, None), log) ->
  In (path_Join ["/"; Config (Repo (Request req))]) (fetched log).
Proof.
  intros C N.
  assert (S : forall files cache cd lg0,
    (forall path, cache !! path <> None -> In path (fetched lg0)) ->
    match scan_changed yaml p req files cache cd lg0 with
    | (Returns (Continue cache' _), lg) =>
        (files <> [] -> In (path_Join ["/"; Config (Repo (Request req))]) (fetched lg))
        /\ (forall path, cache' !! path <> None -> In path (fetched lg))
    | (Returns (Return _ err), _) => err <> None
    | _ => True
    end).
  { induction files as [|file rest IH]; intros cache cd lg0 Inv; [now split|].
    cbn [scan_changed]. unfold mbind, M_bind.
    set (file' := if negb (strings_HasPrefix file "/") then "/" +:+ file else file).
    pose proof (walk_reaches_root yaml p req (String.length file' + 2) C file' cache cd lg0 Inv)
      as W.
    destruct (walk yaml p req (String.length file' + 2) false file' cache cd lg0) as [r lg1].
    destruct r as [[cache1 cd1|cd1 err]| |]; try exact W; try exact I.
    destruct W as [R Inv1]. specialize (IH cache1 cd1 lg1 Inv1).
    destruct (scan_changed_log_extends yaml p req rest cache1 cd1 lg1) as [ext E].
    destruct (scan_changed yaml p req rest cache1 cd1 lg1) as [r lg2].
    cbn [snd] in E. subst lg2.
    destruct r as [[cache2 cd2|cd2 err]| |]; try exact IH; try exact I.
    split; [|apply IH]. intros _. rewrite fetched_app. apply in_or_app. now left. }
  unfold run. rewrite getScmConfigData_scan.
  specialize (S changedFiles ∅ "" []).
  destruct (scan_changed yaml p req changedFiles ∅ "" []) as [[[c x|x e]| |] lg];
    intros E; try discriminate E.
  - injection E as _ <-. destruct S as [S1 _]; [|exact (S1 N)].
    intros path H. now rewrite lookup_empty in H.
  - injection E as _ -> _. exfalso. apply S; [|reflexivity].
    intros path H. now rewrite lookup_empty in H.
Qed.

Lemma root_candidate_always_fetched_witness :
  run (getScmConfigData scenario_yaml (scenario_plugin true false)
         {| Request := push_event ".pipeline.yml" "1f3a" "9c4e";
            Client := nested_repo (pipeline "ab") (pipeline "a") |}
         ["a/b/x.go"; "a/y.go"])
  = (Returns ("---" +:+ LF +:+ pipeline "ab" +:+ "---" +:+ LF +:+ pipeline "a", None),
     [CallContentsFind "octo/mono" "/a/b/.pipeline.yml" "9c4e";
      CallContentsFind "octo/mono" "/a/.pipeline.yml" "9c4e";
      CallContentsFind "octo/mono" "/.pipeline.yml" "9c4e"])
  /\ In "/.pipeline.yml" ["/a/b/.pipeline.yml"; "/a/.pipeline.yml"; "/.pipeline.yml"].
Proof.
  split; [vm_compute; reflexivity|].
  apply (root_candidate_always_fetched scenario_yaml (scenario_plugin true false)
           {| Request := push_event ".pipeline.yml" "1f3a" "9c4e";
              Client := nested_repo (pipeline "ab") (pipeline "a") |}
           ["a/b/x.go"; "a/y.go"]
           ("---" +:+ LF +:+ pipeline "ab" +:+ "---" +:+ LF +:+ pipeline "a")
           [CallContentsFind "octo/mono" "/a/b/.pipeline.yml" "9c4e";
            CallContentsFind "octo/mono" "/a/.pipeline.yml" "9c4e";
            CallContentsFind "octo/mono" "/.pipeline.yml" "9c4e"]);
    [reflexivity | discriminate | vm_compute; reflexivity].
Defined.

(** ** [Find] as a whole *)

Lemma strip_separator_line (r : string) :
  strip ("---" +:+ LF +:+ r) = "---" +:+ LF +:+ strip r.
Proof. reflexivity. Qed.

Lemma collapse_separator_head (z : string) :
  strings_HasPrefix (collapse ("---" +:+ LF +:+ z)) "---" = true.
Proof.
  destruct (Nat.le_gt_cases 2 (fst (groups false ("---" +:+ LF +:+ z)))) as [G|G].
  - now rewrite (dedup_match _ _ G).
  - change ("---" +:+ LF +:+ z) with (String "-" ("--" +:+ LF +:+ z)) in *.
    rewrite (dedup_no_match _ _ _ G).
    change ("--" +:+ LF +:+ z) with (String "-" ("-" +:+ LF +:+ z)).
    rewrite dedup_no_match by (rewrite groups_false_other; [simpl; lia | reflexivity]).
    change ("-" +:+ LF +:+ z) with (String "-" (LF +:+ z)).
    rewrite dedup_no_match by (rewrite groups_false_other; [simpl; lia | reflexivity]).
    reflexivity.
Qed.

Lemma cleanup_separator_head (cd : string) :
  strings_HasPrefix cd ("---" +:+ LF) = true ->
  strings_HasPrefix (cleanup cd) "---" = true.
Proof.
  intros H. destruct (has_prefix_inv _ _ H) as [r ->].
  rewrite cleanup_unfold. rewrite append_assoc, strip_separator_line.
  apply collapse_separator_head.
Qed.

(** X13.  A configuration that [Find] returns is never empty: its data
    start with three hyphens. *)
Theorem found_config_starts_with_hyphens (yaml : string -> droneConfig + error)
    (newDefault : scm_Client) (new : string -> scm_Client + error)
    (p : plugin) (droneRequest : config_Request) (log : list Call) (cfg : drone_Config) :
  fst (Find yaml newDefault new p droneRequest log) = Returns (inl cfg) ->
  strings_HasPrefix (Data cfg) "---" = true.
Proof.
  unfold Find.
  destruct (if String.eqb (server p) "" then inl newDefault else new (server p))
    as [client|e]; [|discriminate].
  unfold mbind, M_bind.
  set (rq := {| Request := droneRequest; Client := client |}).
  destruct (getScmChanges p rq log) as [[changed [e|]] lg]; [discriminate|].
  assert (Fin : forall (r : outcome (string * option error)) (lg' : list Call),
    (forall cd err, r = Returns (cd, err) ->
       cd = "" \/ strings_HasPrefix cd ("---" +:+ LF) = true) ->
    fst (match r with
         | Returns (configData, Some e) => ret (Returns (inr e))
         | Returns (configData, None) =>
             if String.eqb configData ""
             then ret (Returns (inr "did not find a .drone.yml"))
             else ret (Returns (inl {| Data := cleanup configData |}))
         | Panics => ret Panics
         | OutOfFuel => ret OutOfFuel
         end lg') = Returns (inl cfg) ->
    strings_HasPrefix (Data cfg) "---" = true).
  { intros r lg' H. destruct r as [[cd [e|]]| |]; try discriminate.
    destruct (String.eqb cd "") eqn:E; [discriminate|].
    cbn. intros R. injection R as <-. cbn [Data].
    destruct (H cd None eq_refl) as [->|P]; [discriminate E|].
    now apply cleanup_separator_head. }
  assert (A : forall lg0 cd err,
    fst (getAllConfigData p rq "/" 0 lg0) = Returns (cd, err) ->
    cd = "" \/ strings_HasPrefix cd ("---" +:+ LF) = true).
  { intros lg0 cd err E. left.
    destruct (scanner_total p rq "/" 0%Z lg0) as [E'|[err' E']]; congruence. }
  destruct changed as [files|].
  - pose proof (fun cd err => getScmConfigData_data yaml p rq
        (fun cd => cd = "" \/ (strings_HasPrefix cd ("---" +:+ LF) = true
                               /\ strings_HasSuffix cd LF = true))
        files lg cd err (or_introl eq_refl) (fun cd a => append_data_form cd a)) as D.
    destruct (getScmConfigData yaml p rq files lg) as [r lg']. cbn [fst] in D.
    apply Fin. intros cd err ->. destruct (D cd err eq_refl) as [[->|[P _]] _]; auto.
  - destruct (String.eqb (Trigger (Build droneRequest)) "@cron");
      [|destruct (fallback p)].
    1,2: specialize (A lg);
         destruct (getAllConfigData p rq "/" 0 lg) as [r lg']; cbn [fst] in A;
         apply Fin; intros cd err ->; exact (A cd err eq_refl).
    apply (Fin (Returns ("", None)) lg). intros cd err E. injection E as <- _. now left.
Qed.

Lemma found_config_starts_with_hyphens_witness :
  fst (resolve (New "" "t" true false 2) nameless_repo (push_event ".drone.yml" "1f3a" "9c4e"))
  = Returns (inl {| Data := "---" +:+ LF +:+ pipeline "root" |})
  /\ strings_HasPrefix ("---" +:+ LF +:+ pipeline "root") "---" = true.
Proof.
  split; [vm_compute; reflexivity|].
  apply (found_config_starts_with_hyphens scenario_yaml nameless_repo
           (fun _ => inl nameless_repo) (New "" "t" true false 2)
           (push_event ".drone.yml" "1f3a" "9c4e") []
           {| Data := "---" +:+ LF +:+ pipeline "root" |}).
  vm_compute. reflexivity.
Defined.

(** X14.  When there are no changed files for an event that is not
    scheduled and the fallback is disabled, [Find] reports that no
    configuration was found without asking the SCM for anything more:
    neither a directory nor a file is requested. *)
Theorem no_changes_without_fallback (yaml : string -> droneConfig + error)
    (newDefault : scm_Client) (new : string -> scm_Client + error)
    (p : plugin) (droneRequest : config_Request) (client : scm_Client) :
  (if String.eqb (server p) "" then inl newDefault else new (server p)) = inl client ->
  String.eqb (Trigger (Build droneRequest)) "@cron" = false ->
  fallback p = false ->
  fst (run (getScmChanges p {| Request := droneRequest; Client := client |})) = (None, None) ->
  run (Find yaml newDefault new p droneRequest)
  = (Returns (inr "did not find a .drone.yml"),
     snd (run (getScmChanges p {| Request := droneRequest; Client := client |})))
  /\ fetched (snd (run (Find yaml newDefault new p droneRequest))) = [].
Proof.
  intros C T F G.
  assert (E : run (Find yaml newDefault new p droneRequest)
              = (Returns (inr "did not find a .drone.yml"),
                 snd (run (getScmChanges p {| Request := droneRequest; Client := client |})))).
  { unfold run in *. unfold Find. rewrite C. unfold mbind, M_bind.
    destruct (getScmChanges p _ []) as [[ch er] lg]. cbn [fst snd] in *.
    injection G as -> ->. rewrite T, F. reflexivity. }
  split; [exact E|]. rewrite E. cbn [snd]. unfold run.
  now rewrite getScmChanges_fetched.
Qed.

Lemma no_changes_without_fallback_witness :
  run (Find scenario_yaml quiet_repo (fun _ => inl quiet_repo) (New "" "t" true false 2)
         (push_event ".drone.yml" "1f3a" "9c4e"))
  = (Returns (inr "did not find a .drone.yml"), [CallGitChanges "octo/mono" "9c4e"])
  /\ fetched (snd (run (Find scenario_yaml quiet_repo (fun _ => inl quiet_repo)
                          (New "" "t" true false 2) (push_event ".drone.yml" "1f3a" "9c4e"))))
     = [].
Proof.
  apply (no_changes_without_fallback scenario_yaml quiet_repo (fun _ => inl quiet_repo)
           (New "" "t" true false 2) (push_event ".drone.yml" "1f3a" "9c4e") quiet_repo);
    reflexivity.
Defined.

(** X15.  For a scheduled build, [Find] asks the SCM for one thing only,
    the root directory at the after-revision: no list of changed files is
    requested, whether the fallback is enabled or not. *)
Theorem scheduled_build_lists_root (yaml : string -> droneConfig + error)
    (newDefault : scm_Client) (new : string -> scm_Client + error)
    (p : plugin) (droneRequest : config_Request) (client : scm_Client) :
  (if String.eqb (server p) "" then inl newDefault else new (server p)) = inl client ->
  String.eqb (Trigger (Build droneRequest)) "@cron" = true ->
  snd (run (Find yaml newDefault new p droneRequest))
  = [CallContentsFind (Slug (Repo droneRequest)) "/" (After (Build droneRequest))].
Proof.
  intros C T. unfold run, Find. rewrite C. unfold mbind, M_bind.
  assert (G : getScmChanges p {| Request := droneRequest; Client := client |} []
              = ((None, None), [])).
  { unfold getScmChanges. cbn [Request Build]. now rewrite T. }
  rewrite G, T.
  unfold getAllConfigData, contents_find, emit, ret, mbind, M_bind, mret, M_ret.
  cbn [Request Client Repo Build app].
  destruct (Contents_Find client _ "/" _) as [ls [e|]]; cbn; [reflexivity|].
  destruct (maxDepth p <? 0)%Z; cbn; [reflexivity|].
  destruct ls; reflexivity.
Qed.

Lemma scheduled_build_lists_root_witness :
  snd (run (Find scenario_yaml quiet_repo (fun _ => inl quiet_repo) (New "" "t" true false 2)
              (cron_event ".drone.yml" "9c4e")))
  = [CallContentsFind "octo/mono" "/" "9c4e"].
Proof.
  apply (scheduled_build_lists_root scenario_yaml quiet_repo (fun _ => inl quiet_repo)
           (New "" "t" true false 2) (cron_event ".drone.yml" "9c4e") quiet_repo);
    reflexivity.
Defined.

(** ** The clean-up *)




Lemma contains_dots3 (s : string) : contains "..." s = has_dots3 s.
Proof. induction s as [|c s IH]; [reflexivity|]. cbn [contains has_dots3]. now rewrite IH. Qed.

Lemma contains_occurs (sub s : string) : contains sub s = true <-> occurs sub s.
Proof.
  split.
  - induction s as [|c s IH]; cbn [contains]; intros H.
    + rewrite orb_false_r in H. destruct (has_prefix_inv _ _ H) as [r E].
      exists "", r. exact E.
    + apply orb_prop in H as [H|H].
      * destruct (has_prefix_inv _ _ H) as [r E]. exists "", r. exact E.
      * destruct (IH H) as (a & b & ->). now exists (String c a), b.
  - intros (a & b & ->). induction a as [|c a IH].
    + cbn [String.append].
      assert (P : strings_HasPrefix (sub +:+ b) sub = true).
      { clear. induction sub as [|x sub IH]; [reflexivity|].
        cbn [String.append strings_HasPrefix]. now rewrite Ascii.eqb_refl, IH. }
      destruct (sub +:+ b); cbn [contains]; now rewrite P.
    + cbn [String.append contains]. rewrite IH. apply orb_true_r.
Qed.

Lemma collapse_without_separator (s : string) : contains "---" s = false -> collapse s = s.
Proof.
  induction s as [|c s IH]; [reflexivity|].
  cbn [contains]. intros H. apply orb_false_elim in H as [P H].
  rewrite dedup_no_match by (rewrite (groups_false_other _ P); simpl; lia).
  now rewrite IH.
Qed.

(** X17.  A text that holds neither three hyphens in a row nor three
    dots in a row is left as it is by the clean-up. *)
Theorem cleanup_without_markers (s : string) :
  contains "---" s = false -> contains "..." s = false -> cleanup s = s.
Proof.
  intros H D. rewrite cleanup_unfold. rewrite contains_dots3 in D.
  rewrite (strip_fixed _ D). now apply collapse_without_separator.
Qed.

Lemma cleanup_without_markers_witness :
  contains "---" (pipeline "a" +:+ "steps:" +:+ LF +:+ "- name: b..c" +:+ LF) = false
  /\ contains "..." (pipeline "a" +:+ "steps:" +:+ LF +:+ "- name: b..c" +:+ LF) = false
  /\ cleanup (pipeline "a" +:+ "steps:" +:+ LF +:+ "- name: b..c" +:+ LF)
     = pipeline "a" +:+ "steps:" +:+ LF +:+ "- name: b..c" +:+ LF.
Proof.
  split; [reflexivity|]. split; [reflexivity|].
  apply (cleanup_without_markers
           (pipeline "a" +:+ "steps:" +:+ LF +:+ "- name: b..c" +:+ LF)); reflexivity.
Defined.

Lemma collapse_app_no_dash (x t : string) :
  all_bytes (fun c => negb (is_dash c)) x = true -> collapse (x +:+ t) = x +:+ collapse t.
Proof.
  induction x as [|c x IH]; [reflexivity|].
  cbn [all_bytes String.append]. intros H. apply andb_prop in H as [H1 H2].
  apply negb_true_iff in H1. rewrite (dedup_no_dash _ _ _ H1). now rewrite IH.
Qed.

Lemma groups_separator_lines (n : nat) (y : string) :
  starts_with_dash y = false -> skip_ws y = y ->
  groups false (separator_lines (S n) +:+ y) = (S n, y).
Proof.
  intros D W.
  assert (P : strings_HasPrefix y "---" = false).
  { destruct y as [|c y]; [reflexivity|]. cbn in *. fold (is_dash c). now rewrite D. }
  induction n as [|n IH].
  - change (separator_lines 1 +:+ y) with ("---" +:+ (LF +:+ y)).
    rewrite groups_false_dashes.
    change (skip_ws (LF +:+ y)) with (skip_ws y). rewrite W.
    now rewrite (groups_false_other _ P).
  - change (separator_lines (S (S n)) +:+ y)
      with ("---" +:+ (LF +:+ (separator_lines (S n) +:+ y))).
    rewrite groups_false_dashes.
    change (skip_ws (LF +:+ (separator_lines (S n) +:+ y)))
      with (separator_lines (S n) +:+ y).
    now rewrite IH.
Qed.

(** X18.  Two or more separator lines in a row, after a text without
    hyphens and before a text that starts neither with white space nor
    with a hyphen, are replaced by one separator, and the line feed after
    the last of them goes with them: what follows stands directly after
    the three hyphens. *)
Theorem separator_lines_collapse (n : nat) (x y : string) :
  all_bytes (fun c => negb (is_dash c)) x = true ->
  starts_with_dash y = false ->
  skip_ws y = y ->
  dedupRegex_ReplaceAll (x +:+ separator_lines (S (S n)) +:+ y) "---"
  = x +:+ "---" +:+ dedupRegex_ReplaceAll y "---".
Proof.
  intros X D W. unfold dedupRegex_ReplaceAll.
  rewrite (collapse_app_no_dash _ _ X).
  pose proof (groups_separator_lines (S n) y D W) as G.
  rewrite dedup_match by (rewrite G; simpl; lia).
  now rewrite G.
Qed.

Lemma separator_lines_collapse_witness :
  dedupRegex_ReplaceAll
    (("name: a" +:+ LF) +:+ separator_lines 3 +:+ "kind: pipeline") "---"
  = ("name: a" +:+ LF) +:+ "---" +:+ dedupRegex_ReplaceAll "kind: pipeline" "---".
Proof.
  apply (separator_lines_collapse 1 ("name: a" +:+ LF) "kind: pipeline"); reflexivity.
Defined.

(** ** Bounds on one request *)

Lemma getScmDroneConfig_result yaml (p : plugin) (req : request) (file : string)
    (log : list Call) :
  fst (getScmDroneConfig yaml p req file log) = candidate yaml p req file.
Proof.
  unfold candidate, getScmDroneConfig, getScmFile, contents_find, emit, ret, mbind, M_bind,
    mret, M_ret.
  destruct (Contents_Find (Client req) _ file _) as [[d|] [e|]]; cbn; try reflexivity.
  destruct (yaml (ContentData d)) as [dc|e]; cbn; [|reflexivity].
  destruct (String.eqb (Name dc) "" || String.eqb (Kind dc) ""); reflexivity.
Qed.

(** X19.  With concat mode disabled, the walk of one changed file adds
    at most one fragment to the data, and stops where it adds it: either
    every candidate it fetched came with an error and the data are as
    before, or the last candidate it fetched is the only one that came
    without an error, and the data are extended by that one content. *)
Theorem single_mode_stops_at_first_success (yaml : string -> droneConfig + error)
    (p : plugin) (req : request) (fuel : nat) (done : bool) (dir : string)
    (cache cache' : gmap string bool) (configData configData' : string)
    (log log' : list Call) :
  concat p = false ->
  walk yaml p req fuel done dir cache configData log
  = (Returns (Continue cache' configData'), log') ->
  exists paths : list string,
    log' = log ++ map (fun file => CallContentsFind (Slug (Repo (Request req))) file
                                     (After (Build (Request req)))) paths
    /\ ((configData' = configData
         /\ Forall (fun file => snd (candidate yaml p req file) <> None) paths)
        \/ exists (front : list string) (last content : string) (critical : bool),
             paths = front ++ [last]
             /\ Forall (fun file => snd (candidate yaml p req file) <> None) front
             /\ candidate yaml p req last = (content, critical, None)
             /\ configData' = droneConfigAppend configData [content]).
Proof.
  intros C. revert done dir cache log.
  induction fuel as [|f IH]; intros done dir cache log.
  - destruct done; cbn; intros E; [|discriminate E]. injection E as _ <- <-.
    exists []. cbn. rewrite app_nil_r. split; [reflexivity|]. left. now split.
  - destruct done.
    { cbn; intros E; injection E as _ <- <-.
      exists []. cbn. rewrite app_nil_r. split; [reflexivity|]. left. now split. }
    rewrite walk_cases. cbv zeta.
    set (file := path_Join [path_Join [dir; ".."]; Config (Repo (Request req))]).
    destruct (_ !! _); [apply IH|].
    rewrite getScmDroneConfig_result.
    destruct (candidate yaml p req file) as [[fc crit] [e|]] eqn:G.
    + destruct crit; [discriminate|]. intros E.
      destruct (IH _ _ _ _ E) as (paths & L & H).
      exists (file :: paths). split; [rewrite L, <- app_assoc; reflexivity|].
      assert (Ge : snd (candidate yaml p req file) <> None) by (rewrite G; discriminate).
      destruct H as [[-> F]|(front & last & content & critical & -> & F & K & ->)].
      * left. split; [reflexivity|]. now constructor.
      * right. exists (file :: front), last, content, critical.
        split; [reflexivity|]. split; [now constructor|]. now split.
    + rewrite C. cbn [negb]. intros E. injection E as _ <- <-.
      exists [file]. split; [reflexivity|].
      right. exists [], file, fc, crit. split; [reflexivity|]. split; [constructor|]. now split.
Qed.

Lemma single_mode_stops_at_first_success_witness :
  walk scenario_yaml (scenario_plugin false false)
    {| Request := push_event ".pipeline.yml" "1f3a" "9c4e";
       Client := nested_repo (pipeline "ab") (pipeline "a") |}
    15 false "/a/b/c/x.go" ∅ "" []
  = (Returns (Continue (<["/a/b/.pipeline.yml" := true]> (<["/a/b/c/.pipeline.yml" := true]> ∅))
                ("---" +:+ LF +:+ pipeline "ab")),
     [CallContentsFind "octo/mono" "/a/b/c/.pipeline.yml" "9c4e";
      CallContentsFind "octo/mono" "/a/b/.pipeline.yml" "9c4e"])
  /\ exists paths : list string,
       [CallContentsFind "octo/mono" "/a/b/c/.pipeline.yml" "9c4e";
        CallContentsFind "octo/mono" "/a/b/.pipeline.yml" "9c4e"]
       = [] ++ map (fun file => CallContentsFind "octo/mono" file "9c4e") paths
       /\ (("---" +:+ LF +:+ pipeline "ab" = ""
            /\ Forall (fun file =>
                 snd (candidate scenario_yaml (scenario_plugin false false)
                        {| Request := push_event ".pipeline.yml" "1f3a" "9c4e";
                           Client := nested_repo (pipeline "ab") (pipeline "a") |} file)
                 <> None) paths)
           \/ exists (front : list string) (last content : string) (critical : bool),
                paths = front ++ [last]
                /\ Forall (fun file =>
                     snd (candidate scenario_yaml (scenario_plugin false false)
                            {| Request := push_event ".pipeline.yml" "1f3a" "9c4e";
                               Client := nested_repo (pipeline "ab") (pipeline "a") |} file)
                     <> None) front
                /\ candidate scenario_yaml (scenario_plugin false false)
                     {| Request := push_event ".pipeline.yml" "1f3a" "9c4e";
                        Client := nested_repo (pipeline "ab") (pipeline "a") |} last
                   = (content, critical, None)
                /\ "---" +:+ LF +:+ pipeline "ab" = droneConfigAppend "" [content]).
Proof.
  split; [reflexivity|].
  apply (single_mode_stops_at_first_success scenario_yaml (scenario_plugin false false)
           {| Request := push_event ".pipeline.yml" "1f3a" "9c4e";
              Client := nested_repo (pipeline "ab") (pipeline "a") |}
           15 false "/a/b/c/x.go" ∅
           (<["/a/b/.pipeline.yml" := true]> (<["/a/b/c/.pipeline.yml" := true]> ∅)) ""
           ("---" +:+ LF +:+ pipeline "ab") []); reflexivity.
Defined.

(** With concat mode enabled the walk goes on after a candidate fetched
    without an error: in the scenario with two nested configurations the
    walk of the first file fetches three candidates, the first two of them
    without an error. *)
Example concat_mode_goes_on :
  walk scenario_yaml (scenario_plugin true false)
    {| Request := push_event ".pipeline.yml" "1f3a" "9c4e";
       Client := nested_repo (pipeline "ab") (pipeline "a") |}
    11 false "/a/b/x.go" ∅ "" []
  = (Returns (Continue (<["/.pipeline.yml" := true]> (<["/a/.pipeline.yml" := true]>
                         (<["/a/b/.pipeline.yml" := true]> ∅)))
                ("---" +:+ LF +:+ pipeline "ab" +:+ "---" +:+ LF +:+ pipeline "a")),
     [CallContentsFind "octo/mono" "/a/b/.pipeline.yml" "9c4e";
      CallContentsFind "octo/mono" "/a/.pipeline.yml" "9c4e";
      CallContentsFind "octo/mono" "/.pipeline.yml" "9c4e"]).
Proof. reflexivity. Qed.

Lemma walk_log_length yaml p req fuel :
  forall done dir cache cd log,
  length (snd (walk yaml p req fuel done dir cache cd log)) <= length log + fuel.
Proof.
  induction fuel as [|f IH]; intros done dir cache cd log.
  - destruct done; cbn; lia.
  - destruct done; [cbn; lia|].
    rewrite walk_cases. cbv zeta.
    set (file := path_Join [path_Join [dir; ".."]; Config (Repo (Request req))]).
    set (call := CallContentsFind _ file _).
    assert (K : forall d c x,
      length (snd (walk yaml p req f d (path_Join [dir; ".."]) c x (log ++ [call])))
      <= length log + S f).
    { intros d c x. pose proof (IH d (path_Join [dir; ".."]) c x (log ++ [call])) as H.
      rewrite length_app in H. cbn [length] in H. lia. }
    assert (K1 : length (log ++ [call]) <= length log + S f)
      by (rewrite length_app; cbn [length]; lia).
    destruct (cache !! file).
    + pose proof (IH (String.eqb dir "/") (path_Join [dir; ".."]) cache cd log). lia.
    + destruct (fst (getScmDroneConfig yaml p req file log)) as [[fc crit] [e|]].
      * destruct crit; [exact K1 | apply K].
      * destruct (negb (concat p)); [exact K1 | apply K].
Qed.

(** X20.  The number of requests that [getScmConfigData] makes is bounded
    by the lengths of the changed paths: for each changed file, no more
    than its length in bytes and three. *)
Theorem requests_bounded_by_path_lengths (yaml : string -> droneConfig + error)
    (p : plugin) (req : request) (changedFiles : list string) :
  length (snd (run (getScmConfigData yaml p req changedFiles)))
  <= list_sum (map (fun file => String.length file + 3) changedFiles).
Proof.
  assert (S : forall files cache cd log,
    length (snd (scan_changed yaml p req files cache cd log))
    <= length log + list_sum (map (fun file => String.length file + 3) files)).
  { induction files as [|file rest IH]; intros cache cd log; [cbn; lia|].
    cbn [scan_changed map]. unfold mbind, M_bind.
    replace (list_sum (String.length file + 3 :: map (fun f => String.length f + 3) rest))
      with (String.length file + 3 + list_sum (map (fun f => String.length f + 3) rest))
      by reflexivity.
    set (file' := if negb (strings_HasPrefix file "/") then "/" +:+ file else file).
    assert (L : String.length file' <= String.length file + 1).
    { subst file'. destruct (negb (strings_HasPrefix file "/")); simpl; lia. }
    pose proof (walk_log_length yaml p req (String.length file' + 2) false file' cache cd log)
      as W.
    destruct (walk yaml p req (String.length file' + 2) false file' cache cd log) as [r lg].
    cbn [snd] in W.
    destruct r as [[cache' cd'|cd' err]| |];
      [pose proof (IH cache' cd' lg); lia | cbn; lia..]. }
  unfold run. rewrite getScmConfigData_scan.
  pose proof (S changedFiles ∅ "" []) as H.
  destruct (scan_changed yaml p req changedFiles ∅ "" []) as [[[? ?|? ?]| |] lg];
    cbn [snd length] in *; lia.
Qed.

(** ** The scenario with two nested configurations *)

















